(** * Tirtha backend: the data model of [tirtha_bk/tirtha/models.py]

    A shallow embedding of the Django models of the Tirtha backend (Mesh,
    Contributor, Contribution, Image, ARK, Run), of their [save] overrides
    and of the upload-path functions, together with the part of the
    framework they rely on: the persistence of a row ([Model.save]), the
    uniqueness constraints the fields declare, and the deletion collector
    that follows the [on_delete] rules of the foreign keys.

    Conventions.
    - Python strings are [string]s; a character is a code point below 256.
    - A call that may raise returns an [Outcome]: the exception raised (if
      any), the instance as the call leaves it, and the world (database
      tables and media storage) as the call leaves it.
    - Python's [float] is IEEE binary64, modelled by the primitive floats. *)

From Stdlib Require Import ZArith NArith Ascii String Floats Uint63.
From stdpp Require Import base strings gmap list.

Open Scope Z_scope.

(** ** Python strings *)

Module PyStr.

  (** [s.startswith(c)] and [s.endswith(c)] for a one-character [c]. *)
Definition startswith (c : ascii) (s : string) : bool :=
    match s with
    | EmptyString => false
    | String x _ => Ascii.eqb x c
    end.

Fixpoint endswith (c : ascii) (s : string) : bool :=
    match s with
    | EmptyString => false
    | String x EmptyString => Ascii.eqb x c
    | String _ rest => endswith c rest
    end.

  (** [s.split(sep)] for a one-character separator: never the empty list. *)
Fixpoint split (sep : ascii) (s : string) : list string :=
    match s with
    | EmptyString => [EmptyString]
    | String x rest =>
        if Ascii.eqb x sep then EmptyString :: split sep rest
        else match split sep rest with
             | tok :: toks => String x tok :: toks
             | [] => [String x EmptyString]
             end
    end.

  (** [l[-1]] on the result of [split] (which is never empty). *)
Definition last_token (l : list string) : string := List.last l EmptyString.

  (** [c.lower()] on code points below 256: the ASCII capitals and the
      Latin-1 capitals (U+00C0..U+00DE except the multiplication sign
      U+00D7) move up by 32, everything else is unchanged. *)
Definition lower_char (c : ascii) : ascii :=
    let n := N_of_ascii c in
    if ((65 <=? n) && (n <=? 90))%N then ascii_of_N (n + 32)
    else if ((192 <=? n) && (n <=? 222) && negb (n =? 215))%N
         then ascii_of_N (n + 32)
         else c.

Fixpoint lower (s : string) : string :=
    match s with
    | EmptyString => EmptyString
    | String x rest => String (lower_char x) (lower rest)
    end.

  (** [s.replace(a, b)] for one-character [a] and [b]: every occurrence. *)
Fixpoint replace (a b : ascii) (s : string) : string :=
    match s with
    | EmptyString => EmptyString
    | String x rest =>
        String (if Ascii.eqb x a then b else x) (replace a b rest)
    end.

  (** [bool(s)]: a string is truthy when it is not empty. *)
Definition truthy (s : string) : bool :=
    match s with EmptyString => false | _ => true end.

  (** Whether a character occurs in a string. *)
Fixpoint contains (c : ascii) (s : string) : bool :=
    match s with
    | EmptyString => false
    | String x rest => Ascii.eqb x c || contains c rest
    end.

End PyStr.

(** [os.path.join(a, b)] of [posixpath], two arguments: an absolute second
    component discards the first; no separator is added after an empty
    first component or one that already ends with the separator. *)
Definition os_path_join (a b : string) : string :=
  if PyStr.startswith "/" b then b
  else if negb (PyStr.truthy a) || PyStr.endswith "/" a then a +:+ b
       else a +:+ "/" +:+ b.

(** ** Identifiers and timestamps *)

(** A [uuid.UUID] is a 128-bit number; [str(u)] prints its 32 hexadecimal
    digits in lower case, grouped 8-4-4-4-12. *)
Definition UUID := N.

Definition hexdigit (n : N) : ascii :=
  match n with
  | 0 => "0" | 1 => "1" | 2 => "2" | 3 => "3" | 4 => "4" | 5 => "5"
  | 6 => "6" | 7 => "7" | 8 => "8" | 9 => "9" | 10 => "a" | 11 => "b"
  | 12 => "c" | 13 => "d" | 14 => "e" | _ => "f"
  end%N%char.

Definition nibble (u : UUID) (i : N) : N := N.land (N.shiftr u (4 * i)) 15.

Fixpoint hex_run (u : UUID) (hi : N) (count : nat) : string :=
  match count with
  | O => EmptyString
  | S k => String (hexdigit (nibble u hi)) (hex_run u (N.pred hi) k)
  end.

Definition str_UUID (u : UUID) : string :=
  hex_run u 31 8 +:+ "-" +:+ hex_run u 23 4 +:+ "-" +:+ hex_run u 19 4
  +:+ "-" +:+ hex_run u 15 4 +:+ "-" +:+ hex_run u 11 12.

(** A [datetime], to the second. *)
Record datetime := {
  year : nat; month : nat; day : nat;
  hour : nat; minute : nat; second : nat
}.

Definition digit (n : nat) : ascii := ascii_of_nat (48 + n mod 10).

(** Zero-padded decimal fields of [strftime]: [%m %d %H %M %S] have two
    digits and [%Y] has four (datetime years range over 1..9999). *)
Definition dec2 (n : nat) : string :=
  String (digit (n / 10)) (String (digit n) EmptyString).

Definition dec4 (n : nat) : string :=
  String (digit (n / 1000)) (String (digit (n / 100)) (dec2 n)).

(** [dt.strftime('%Y-%m-%d-%H-%M-%S')] *)
Definition strftime_Ymd_HMS (dt : datetime) : string :=
  dec4 (year dt) +:+ "-" +:+ dec2 (month dt) +:+ "-" +:+ dec2 (day dt)
  +:+ "-" +:+ dec2 (hour dt) +:+ "-" +:+ dec2 (minute dt)
  +:+ "-" +:+ dec2 (second dt).

(** ** Exceptions *)

Inductive PyExc :=
| ValueError (msg : string)
| AttributeError (msg : string)
| ZeroDivisionError
| OverflowError
| FileNotFoundError (path : string)
| UnidentifiedImageError (path : string)
| OSError (msg : string)
| DoesNotExist (model : string)
| IntegrityError (constraint : string)
| DatabaseError (msg : string).

(** The name of the exception class, as [type(e).__name__] gives it. *)
Definition exc_class (e : PyExc) : string :=
  match e with
  | ValueError _ => "ValueError"
  | AttributeError _ => "AttributeError"
  | ZeroDivisionError => "ZeroDivisionError"
  | OverflowError => "OverflowError"
  | FileNotFoundError _ => "FileNotFoundError"
  | UnidentifiedImageError _ => "UnidentifiedImageError"
  | OSError _ => "OSError"
  | DoesNotExist _ => "DoesNotExist"
  | IntegrityError _ => "IntegrityError"
  | DatabaseError _ => "DatabaseError"
  end.

(** ** The models: one record per model class

    A record holds the concrete fields of an instance; a foreign key holds
    the primary key of the row it points to. [adding] is the instance's
    [_state.adding] flag (true until the instance has been saved or when
    it was not loaded from the database); rows in a table have it false. *)

Module Mesh.
Record ReconSettings := {
    center_image : string;
    rotaX : Z; rotaY : Z; rotaZ : Z;
    orientMesh : bool;
    minObsAng : Z;
    denoise : bool
  }.
Record t := {
    ID : string;
    name : string;
    description : string;
    country : string;
    state : string;
    district : string;
    preview : string;          (* name of the stored file, empty when unset *)
    thumbnail : string;        (* name of the stored file, empty when unset *)
    verbose_id : string;       (* unique=True *)
    status : string;
    completed : bool;
    hidden : bool;
    recon : ReconSettings;
    created_at : option datetime;       (* auto_now_add *)
    updated_at : option datetime;       (* auto_now *)
    reconstructed_at : option datetime; (* null=True *)
    adding : bool
  }.
Definition with_verbose_id (v : string) (m : t) : t :=
    {| ID := ID m; name := name m; description := description m;
       country := country m; state := state m; district := district m;
       preview := preview m; thumbnail := thumbnail m; verbose_id := v;
       status := status m; completed := completed m; hidden := hidden m;
       recon := recon m; created_at := created_at m;
       updated_at := updated_at m; reconstructed_at := reconstructed_at m;
       adding := adding m |}.
Definition with_state (c u : option datetime) (a : bool) (m : t) : t :=
    {| ID := ID m; name := name m; description := description m;
       country := country m; state := state m; district := district m;
       preview := preview m; thumbnail := thumbnail m;
       verbose_id := verbose_id m;
       status := status m; completed := completed m; hidden := hidden m;
       recon := recon m; created_at := c;
       updated_at := u; reconstructed_at := reconstructed_at m;
       adding := a |}.
End Mesh.

Module Contributor.
Record t := {
    ID : UUID;
    name : string;
    email : string;
    active : bool;
    created_at : option datetime;  (* auto_now_add *)
    updated_at : option datetime;  (* auto_now *)
    banned : bool;
    ban_reason : string;
    adding : bool
  }.
End Contributor.

Module Contribution.
Record t := {
    ID : UUID;
    mesh : string;                     (* ForeignKey(Mesh, CASCADE) *)
    contributor : UUID;                (* ForeignKey(Contributor, CASCADE) *)
    contributed_at : option datetime;  (* auto_now_add *)
    processed : bool;
    processed_at : option datetime;    (* null=True *)
    adding : bool
  }.
Definition with_state (c : option datetime) (a : bool) (x : t) : t :=
    {| ID := ID x; mesh := mesh x; contributor := contributor x;
       contributed_at := c; processed := processed x;
       processed_at := processed_at x; adding := a |}.
End Contribution.

Module Image.
Record t := {
    ID : UUID;
    contribution : UUID;           (* ForeignKey(Contribution, CASCADE) *)
    image : string;                (* name of the stored file *)
    created_at : option datetime;  (* auto_now_add *)
    label : string;
    remark : string;
    adding : bool
  }.
Definition with_state (f : string) (c : option datetime) (a : bool)
      (x : t) : t :=
    {| ID := ID x; contribution := contribution x; image := f;
       created_at := c; label := label x; remark := remark x;
       adding := a |}.
End Image.

Module ARK.
Record t := {
    ark : string;                  (* primary key *)
    naan : string;
    shoulder : string;
    assigned_name : string;
    created_at : option datetime;  (* auto_now_add *)
    url : string;
    metadata : string;             (* the JSON document, serialised *)
    commitment : string;
    adding : bool
  }.
Definition def_commit : string :=
    "This ARK was generated & is managed by Project Tirtha (https://tirtha.niser.ac.in). "
    +:+ "We are committed to maintaining this ARK as per our Terms of Use (https://tirtha.niser.ac.in/#terms) "
    +:+ "and Privacy Policy (https://tirtha.niser.ac.in/#privacy).".
Definition with_state (c : option datetime) (a : bool) (x : t) : t :=
    {| ark := ark x; naan := naan x; shoulder := shoulder x;
       assigned_name := assigned_name x; created_at := c; url := url x;
       metadata := metadata x; commitment := commitment x; adding := a |}.
  (** [__str__] *)
Definition str (x : t) : string := "ark:/" +:+ ark x.
End ARK.

Module Run.
Record t := {
    ID : string;
    mesh : string;                 (* ForeignKey(Mesh, CASCADE) *)
    ark : option string;           (* OneToOneField(ARK, DO_NOTHING), null=True *)
    started_at : option datetime;  (* auto_now_add *)
    ended_at : option datetime;    (* null=True *)
    directory : string;
    status : string;
    rotaX : option Z; rotaY : option Z; rotaZ : option Z;
    adding : bool
  }.
Definition with_state (s : option datetime) (a : bool) (x : t) : t :=
    {| ID := ID x; mesh := mesh x; ark := ark x; started_at := s;
       ended_at := ended_at x; directory := directory x;
       status := status x; rotaX := rotaX x; rotaY := rotaY x;
       rotaZ := rotaZ x; adding := a |}.
Definition with_directory (d : string) (x : t) : t :=
    {| ID := ID x; mesh := mesh x; ark := ark x;
       started_at := started_at x;
       ended_at := ended_at x; directory := d;
       status := status x; rotaX := rotaX x; rotaY := rotaY x;
       rotaZ := rotaZ x; adding := adding x |}.
Definition with_status (s : string) (x : t) : t :=
    {| ID := ID x; mesh := mesh x; ark := ark x;
       started_at := started_at x;
       ended_at := ended_at x; directory := directory x;
       status := s; rotaX := rotaX x; rotaY := rotaY x;
       rotaZ := rotaZ x; adding := adding x |}.
End Run.

(** ** The world: database tables and media storage *)

(** A picture, as PIL sees it: its pixel size as stored, the EXIF
    orientation tag (1 when absent) and its colour mode ([RGB], [CMYK],
    ...). *)
Record Picture := {
  width : Z;
  height : Z;
  orientation : Z;
  mode : string
}.

(** A stored file: one PIL can read as a picture, or one it cannot (a
    truncated or corrupt file). *)
Inductive File :=
| Readable (p : Picture)
| Unreadable.

Record World := {
  meshes : gmap string Mesh.t;
  contributors : gmap UUID Contributor.t;
  contributions : gmap UUID Contribution.t;
  images : gmap UUID Image.t;
  arks : gmap string ARK.t;
  runs : gmap string Run.t;
  run_contributors : gset (string * UUID);  (* Run.contributors, through table *)
  run_images : gset (string * UUID);        (* Run.images, through table *)
  media : gmap string File                  (* files under MEDIA_ROOT, by name *)
}.

Definition empty_world : World :=
  {| meshes := ∅; contributors := ∅; contributions := ∅; images := ∅;
     arks := ∅; runs := ∅; run_contributors := ∅; run_images := ∅;
     media := ∅ |}.

Definition set_meshes (t : gmap string Mesh.t) (w : World) : World :=
  {| meshes := t; contributors := contributors w;
     contributions := contributions w; images := images w; arks := arks w;
     runs := runs w; run_contributors := run_contributors w;
     run_images := run_images w; media := media w |}.

Definition set_contributors (t : gmap UUID Contributor.t) (w : World) : World :=
  {| meshes := meshes w; contributors := t;
     contributions := contributions w; images := images w; arks := arks w;
     runs := runs w; run_contributors := run_contributors w;
     run_images := run_images w; media := media w |}.

Definition set_contributions (t : gmap UUID Contribution.t) (w : World) : World :=
  {| meshes := meshes w; contributors := contributors w;
     contributions := t; images := images w; arks := arks w;
     runs := runs w; run_contributors := run_contributors w;
     run_images := run_images w; media := media w |}.

Definition set_images (t : gmap UUID Image.t) (w : World) : World :=
  {| meshes := meshes w; contributors := contributors w;
     contributions := contributions w; images := t; arks := arks w;
     runs := runs w; run_contributors := run_contributors w;
     run_images := run_images w; media := media w |}.

Definition set_arks (t : gmap string ARK.t) (w : World) : World :=
  {| meshes := meshes w; contributors := contributors w;
     contributions := contributions w; images := images w; arks := t;
     runs := runs w; run_contributors := run_contributors w;
     run_images := run_images w; media := media w |}.

Definition set_runs (t : gmap string Run.t) (w : World) : World :=
  {| meshes := meshes w; contributors := contributors w;
     contributions := contributions w; images := images w; arks := arks w;
     runs := t; run_contributors := run_contributors w;
     run_images := run_images w; media := media w |}.

Definition set_run_contributors (t : gset (string * UUID)) (w : World) : World :=
  {| meshes := meshes w; contributors := contributors w;
     contributions := contributions w; images := images w; arks := arks w;
     runs := runs w; run_contributors := t;
     run_images := run_images w; media := media w |}.

Definition set_run_images (t : gset (string * UUID)) (w : World) : World :=
  {| meshes := meshes w; contributors := contributors w;
     contributions := contributions w; images := images w; arks := arks w;
     runs := runs w; run_contributors := run_contributors w;
     run_images := t; media := media w |}.

Definition set_media (t : gmap string File) (w : World) : World :=
  {| meshes := meshes w; contributors := contributors w;
     contributions := contributions w; images := images w; arks := arks w;
     runs := runs w; run_contributors := run_contributors w;
     run_images := run_images w; media := t |}.

(** What a call leaves behind: the exception it raised (if any), the
    instance it was called on, and the world. *)
Record Outcome (O : Type) := {
  raised : option PyExc;
  self_after : O;
  world_after : World
}.
Arguments raised {O} _.
Arguments self_after {O} _.
Arguments world_after {O} _.

Definition returns {O} (self : O) (w : World) : Outcome O :=
  {| raised := None; self_after := self; world_after := w |}.

Definition raises {O} (e : PyExc) (self : O) (w : World) : Outcome O :=
  {| raised := Some e; self_after := self; world_after := w |}.

(** ** The framework: persisting one row ([django.db.models.Model.save])

    [Model.save] inserts the row when the instance is being added and its
    primary key has a default, and otherwise updates the row with that
    primary key, inserting when there is none. Before the statement runs,
    [pre_save] stores the clock reading in the [auto_now] fields, and on an
    insert in the [auto_now_add] fields. The statement fails with an
    [IntegrityError] when it breaks a constraint the fields declare
    (primary key, [unique=True], one-to-one, NOT NULL, foreign key).
    Column lengths are not modelled. The file fields of a Mesh hold the
    names of files already committed to the storage: the commit of a
    pending upload by [FileField.pre_save] is not modelled. The range of
    the integer columns is checked where a Run is written, not for a
    Mesh. *)

Inductive Write := INSERT | UPDATE.

Definition choose_write (pk_has_default adding row_exists : bool) : Write :=
  if adding && pk_has_default then INSERT
  else if row_exists then UPDATE else INSERT.

Definition has_row {K V} `{Countable K} (table : gmap K V) (pk : K) : bool :=
  match table !! pk with Some _ => true | None => false end.

(** Following a foreign key to the related instance and reading its
    primary key ([self.mesh.ID]): the row must exist. *)
Definition related_pk {K V} `{Countable K} (model : string)
    (table : gmap K V) (fk : K) : PyExc + K :=
  if has_row table fk then inr fk else inl (DoesNotExist model).

(** *** Mesh *)

(** [verbose_id] is [unique=True]: no other row may hold the same value. *)
Definition verbose_id_taken (w : World) (self : Mesh.t) : bool :=
  bool_decide (map_Exists
    (λ pk row, pk ≠ Mesh.ID self ∧ Mesh.verbose_id row = Mesh.verbose_id self)
    (meshes w)).

Definition Model_save_Mesh (now : datetime) (self : Mesh.t) (w : World)
    : Outcome Mesh.t :=
  match choose_write true (Mesh.adding self) (has_row (meshes w) (Mesh.ID self)) with
  | INSERT =>
      let self1 := Mesh.with_state (Some now) (Some now) (Mesh.adding self) self in
      if has_row (meshes w) (Mesh.ID self) then
        raises (IntegrityError "tirtha_mesh.ID") self1 w
      else if verbose_id_taken w self then
        raises (IntegrityError "tirtha_mesh.verbose_id") self1 w
      else
        let row := Mesh.with_state (Some now) (Some now) false self in
        returns row (set_meshes (<[Mesh.ID self := row]> (meshes w)) w)
  | UPDATE =>
      let self1 :=
        Mesh.with_state (Mesh.created_at self) (Some now) (Mesh.adding self) self in
      match Mesh.created_at self with
      | None => raises (IntegrityError "tirtha_mesh.created_at") self1 w
      | Some _ =>
          if verbose_id_taken w self then
            raises (IntegrityError "tirtha_mesh.verbose_id") self1 w
          else
            let row := Mesh.with_state (Mesh.created_at self) (Some now) false self in
            returns row (set_meshes (<[Mesh.ID self := row]> (meshes w)) w)
      end
  end.

(** *** ARK: the primary key [ark] has no default *)

Definition Model_save_ARK (now : datetime) (self : ARK.t) (w : World)
    : Outcome ARK.t :=
  match choose_write false (ARK.adding self) (has_row (arks w) (ARK.ark self)) with
  | INSERT =>
      let self1 := ARK.with_state (Some now) (ARK.adding self) self in
      if has_row (arks w) (ARK.ark self) then
        raises (IntegrityError "tirtha_ark.ark") self1 w
      else
        let row := ARK.with_state (Some now) false self in
        returns row (set_arks (<[ARK.ark self := row]> (arks w)) w)
  | UPDATE =>
      match ARK.created_at self with
      | None => raises (IntegrityError "tirtha_ark.created_at") self w
      | Some _ =>
          let row := ARK.with_state (ARK.created_at self) false self in
          returns row (set_arks (<[ARK.ark self := row]> (arks w)) w)
      end
  end.

(** *** Run *)

(** [ark] is a one-to-one field: no other Run may point to the same ARK. *)
Definition ark_taken (w : World) (self : Run.t) : bool :=
  match Run.ark self with
  | None => false
  | Some a =>
      bool_decide (map_Exists
        (λ pk row, pk ≠ Run.ID self ∧ Run.ark row = Some a) (runs w))
  end.

(** The rows the foreign keys of a Run point to exist. *)
Definition Run_fk_ok (w : World) (self : Run.t) : bool :=
  has_row (meshes w) (Run.mesh self)
  && match Run.ark self with
     | None => true
     | Some a => has_row (arks w) a
     end.

(** An integer the database adapter can bind: SQLite's INTEGER is a
    signed 64-bit number, and a Python int outside it raises
    [OverflowError] when the statement is executed, before any constraint
    is looked at. [None] is bound as NULL. *)
Definition binds_as_integer (x : option Z) : bool :=
  match x with
  | None => true
  | Some z => (- 2 ^ 63 <=? z) && (z <? 2 ^ 63)
  end.

Definition Run_integers_bind (self : Run.t) : bool :=
  binds_as_integer (Run.rotaX self) && binds_as_integer (Run.rotaY self)
  && binds_as_integer (Run.rotaZ self).

Definition Run_constraint_error (w : World) (self : Run.t) : option PyExc :=
  if negb (Run_fk_ok w self) then Some (IntegrityError "tirtha_run FOREIGN KEY")
  else if ark_taken w self then Some (IntegrityError "tirtha_run.ark_id")
  else None.

(** [super().save()] when [only_directory] is false and
    [super().save(update_fields=["directory"])] when it is true: the
    restricted save writes the [directory] column alone and raises a
    [DatabaseError] when no row has the primary key. A full write binds
    the three rotations first. *)
Definition Model_save_Run (only_directory : bool) (now : datetime)
    (self : Run.t) (w : World) : Outcome Run.t :=
  match choose_write true (Run.adding self) (has_row (runs w) (Run.ID self)) with
  | INSERT =>
      if (only_directory && negb (Run.adding self))%bool then
        raises (DatabaseError "Save with update_fields did not affect any rows.")
               self w
      else
        let self1 := Run.with_state (Some now) (Run.adding self) self in
        if negb (Run_integers_bind self) then raises OverflowError self1 w
        else if has_row (runs w) (Run.ID self) then
          raises (IntegrityError "tirtha_run.ID") self1 w
        else
          match Run_constraint_error w self with
          | Some e => raises e self1 w
          | None =>
              let row := Run.with_state (Some now) false self in
              returns row (set_runs (<[Run.ID self := row]> (runs w)) w)
          end
  | UPDATE =>
      if only_directory then
        match runs w !! Run.ID self with
        | None =>
            raises (DatabaseError "Save with update_fields did not affect any rows.")
                   self w
        | Some old =>
            let row := Run.with_directory (Run.directory self) old in
            returns (Run.with_state (Run.started_at self) false self)
                    (set_runs (<[Run.ID self := row]> (runs w)) w)
        end
      else if negb (Run_integers_bind self) then raises OverflowError self w
      else
        match Run.started_at self with
        | None => raises (IntegrityError "tirtha_run.started_at") self w
        | Some _ =>
            match Run_constraint_error w self with
            | Some e => raises e self w
            | None =>
                let row := Run.with_state (Run.started_at self) false self in
                returns row (set_runs (<[Run.ID self := row]> (runs w)) w)
            end
        end
  end.

(** *** Contribution and Image (no [save] override) *)

Definition Model_save_Contribution (now : datetime) (self : Contribution.t)
    (w : World) : Outcome Contribution.t :=
  match choose_write true (Contribution.adding self)
          (has_row (contributions w) (Contribution.ID self)) with
  | INSERT =>
      let self1 := Contribution.with_state (Some now) (Contribution.adding self) self in
      if has_row (contributions w) (Contribution.ID self) then
        raises (IntegrityError "tirtha_contribution.ID") self1 w
      else if negb (has_row (meshes w) (Contribution.mesh self)
                    && has_row (contributors w) (Contribution.contributor self)) then
        raises (IntegrityError "tirtha_contribution FOREIGN KEY") self1 w
      else
        let row := Contribution.with_state (Some now) false self in
        returns row
          (set_contributions (<[Contribution.ID self := row]> (contributions w)) w)
  | UPDATE =>
      match Contribution.contributed_at self with
      | None => raises (IntegrityError "tirtha_contribution.contributed_at") self w
      | Some _ =>
          if negb (has_row (meshes w) (Contribution.mesh self)
                   && has_row (contributors w) (Contribution.contributor self)) then
            raises (IntegrityError "tirtha_contribution FOREIGN KEY") self w
          else
            let row :=
              Contribution.with_state (Contribution.contributed_at self) false self in
            returns row
              (set_contributions (<[Contribution.ID self := row]> (contributions w)) w)
      end
  end.

(** ** Upload paths: [set_preview], [set_thumbnail], [set_image]

    The [filename] argument is the name the caller uploaded the file under. *)

Definition set_preview (obj : Mesh.t) (filename : string) : string :=
  let upload_to := "models/" +:+ Mesh.ID obj in
  let filename := Mesh.ID obj +:+ "_prev.png" in
  os_path_join upload_to filename.

Definition set_thumbnail (obj : Mesh.t) (filename : string) : string :=
  let upload_to := "models/" +:+ Mesh.ID obj in
  let filename := Mesh.ID obj +:+ "_thumb.png" in
  os_path_join upload_to filename.

(** [obj.contribution.mesh.ID] follows two foreign keys; each related row
    must exist. *)
Definition set_image (w : World) (obj : Image.t) (filename : string)
    : PyExc + string :=
  match contributions w !! Image.contribution obj with
  | None => inl (DoesNotExist "Contribution")
  | Some contribution =>
      match related_pk "Mesh" (meshes w) (Contribution.mesh contribution) with
      | inl e => inl e
      | inr mesh_ID =>
          let upload_to := "models/" +:+ mesh_ID +:+ "/images" in
          let filename :=
            str_UUID (Image.ID obj) +:+ "." +:+
            PyStr.lower (PyStr.last_token (PyStr.split "." filename)) in
          inr (os_path_join upload_to filename)
      end
  end.

(** ** Floating point: [int / int], [int(float)] *)

(** The float nearest to a pixel count (exact below 2^53). *)
Definition float_of_Z (z : Z) : float := PrimFloat.of_uint63 (Uint63.of_Z z).

(** [int(x)]: truncation toward zero; raises on an infinity or a NaN. *)
Definition int_of_float (x : float) : PyExc + Z :=
  match Prim2SF x with
  | S754_zero _ => inr 0
  | S754_finite s m e =>
      let v := if 0 <=? e then Z.pos m * 2 ^ e else Z.pos m / 2 ^ (- e) in
      inr (if s then - v else v)
  | S754_infinity _ => inl OverflowError
  | S754_nan => inl (ValueError "cannot convert float NaN to integer")
  end.

(** ** PIL: open, transpose, resize, save *)

(** [Image.open(path)]: a missing file raises [FileNotFoundError]; a file
    PIL cannot read as a picture, or one with an empty side, raises
    [UnidentifiedImageError]. *)
Definition PILImage_open (w : World) (path : string) : PyExc + Picture :=
  match media w !! path with
  | Some (Readable p) =>
      if (0 <? width p) && (0 <? height p) then inr p
      else inl (UnidentifiedImageError path)
  | Some Unreadable => inl (UnidentifiedImageError path)
  | None => inl (FileNotFoundError path)
  end.

(** [ImageOps.exif_transpose]: orientations 5 to 8 exchange width and
    height; the result carries no orientation tag. *)
Definition exif_transpose (p : Picture) : Picture :=
  if (5 <=? orientation p) && (orientation p <=? 8)
  then {| width := height p; height := width p; orientation := 1;
          mode := mode p |}
  else {| width := width p; height := height p; orientation := 1;
          mode := mode p |}.

Definition resize (p : Picture) (size : Z * Z) : Picture :=
  {| width := fst size; height := snd size; orientation := orientation p;
     mode := mode p |}.

(** [os.path.splitext(path)[1]]: from the last dot of the last path
    component, unless only dots precede it there. *)
Fixpoint all_dots (s : string) : bool :=
  match s with
  | EmptyString => true
  | String x rest => Ascii.eqb x "." && all_dots rest
  end.

Definition splitext_ext (path : string) : string :=
  let base := PyStr.last_token (PyStr.split "/" path) in
  let tokens := PyStr.split "." base in
  let stem_length :=
    (String.length base - S (String.length (PyStr.last_token tokens)))%nat in
  if PyStr.contains "." base && negb (all_dots (String.substring 0 stem_length base))
  then "." +:+ PyStr.last_token tokens
  else "".

(** What [Image.save] makes of a file name and a colour mode: the
    extension of the name selects the format, and the format can hold the
    mode or not. *)
Inductive Encoding := Encodes | UnknownExtension | CannotWriteMode.

(** The formats a Pillow build has registered, as the answer to a file
    name and a colour mode; it depends on the plugins of the build. *)
Definition Registry : Type := string → string → Encoding.

(** [image.save(path, quality=60)]: an unknown extension raises a
    [ValueError] before the file is opened; a mode the format cannot hold
    raises an [OSError] after the file has been opened for writing, which
    leaves a file that was there truncated; otherwise the picture is
    written. The [quality] does not change what is modelled of a picture. *)
Definition Picture_save (registry : Registry) (p : Picture) (path : string)
    (w : World) : option PyExc * World :=
  match registry path (mode p) with
  | UnknownExtension =>
      (Some (ValueError ("unknown file extension: " +:+ splitext_ext path)), w)
  | CannotWriteMode =>
      (Some (OSError ("cannot write mode " +:+ mode p)),
       match media w !! path with
       | Some _ => set_media (<[path := Unreadable]> (media w)) w
       | None => w
       end)
  | Encodes => (None, set_media (<[path := Readable p]> (media w)) w)
  end.

(** The storage writes an uploaded file as it is. *)
Definition Storage_save (p : Picture) (path : string) (w : World) : World :=
  set_media (<[path := Readable p]> (media w)) w.

Definition png_modes : list string :=
  ["1"; "L"; "LA"; "I"; "I;16"; "I;16B"; "P"; "RGB"; "RGBA"].

Definition jpeg_modes : list string :=
  ["1"; "L"; "RGB"; "RGBX"; "CMYK"; "YCbCr"].

(** The registry of a build with the PNG and the JPEG plugin. *)
Definition pillow_registry : Registry :=
  λ path mode,
    let ext := PyStr.lower (splitext_ext path) in
    if bool_decide (ext = ".png") then
      if bool_decide (mode ∈ png_modes) then Encodes else CannotWriteMode
    else if bool_decide (ext ∈ [".jpg"; ".jpeg"; ".jpe"; ".jfif"]) then
      if bool_decide (mode ∈ jpeg_modes) then Encodes else CannotWriteMode
    else UnknownExtension.

(** ** [Mesh.save] *)

Definition min_dimension : Z := 400.

(** The float [image.width / image.height]. *)
Definition aspect_ratio_of (w h : Z) : float :=
  (float_of_Z w / float_of_Z h)%float.

(** The code's test [aspect_ratio > 1]. *)
Definition landscape (w h : Z) : bool :=
  (1 <? aspect_ratio_of w h)%float.

(** Lines 154-166: the size the thumbnail is resized to. *)
Definition thumbnail_size (w h : Z) : PyExc + (Z * Z) :=
  if h =? 0 then inl ZeroDivisionError
  else
    let aspect_ratio := aspect_ratio_of w h in
    if (min_dimension <=? w) && (min_dimension <=? h) then
      if (1 <? aspect_ratio)%float then
        match int_of_float (float_of_Z min_dimension * aspect_ratio)%float with
        | inl e => inl e
        | inr k => inr (Z.max min_dimension k, min_dimension)
        end
      else
        match int_of_float (float_of_Z min_dimension / aspect_ratio)%float with
        | inl e => inl e
        | inr k => inr (min_dimension, Z.max min_dimension k)
        end
    else inr (w, h).

Definition derive_verbose_id (self : Mesh.t) : string :=
  PyStr.replace " " "_"
    (Mesh.country self +:+ "__" +:+ Mesh.state self +:+ "__"
     +:+ Mesh.district self +:+ "__" +:+ Mesh.name self).

(** [now] and [now'] are the clock readings of the two persistences;
    [registry] is what the Pillow build can write. *)
Definition Mesh_save (registry : Registry) (now now' : datetime)
    (self : Mesh.t) (w : World) : Outcome Mesh.t :=
  let self := Mesh.with_verbose_id (derive_verbose_id self) self in
  let saved := Model_save_Mesh now self w in
  match raised saved with
  | Some _ => saved
  | None =>
      let self := self_after saved in
      let w := world_after saved in
      if PyStr.truthy (Mesh.thumbnail self) then
        match PILImage_open w (Mesh.thumbnail self) with
        | inl e => raises e self w
        | inr image =>
            let image := exif_transpose image in
            match thumbnail_size (width image) (height image) with
            | inl e => raises e self w
            | inr new_size =>
                let resized_image := resize image new_size in
                match Picture_save registry resized_image
                        (Mesh.thumbnail self) w with
                | (Some e, w) => raises e self w
                | (None, w) => Model_save_Mesh now' self w
                end
            end
        end
      else saved
  end.

(** ** [ARK.save] *)

Definition ARK_save (now : datetime) (self : ARK.t) (w : World)
    : Outcome ARK.t :=
  if negb (PyStr.startswith "/" (ARK.shoulder self)) then
    raises (ValueError ("Shoulder " +:+ ARK.shoulder self
                        +:+ " must start with a /.")) self w
  else
    let expected_ark :=
      ARK.naan self +:+ ARK.shoulder self +:+ ARK.assigned_name self in
    if negb (String.eqb (ARK.ark self) expected_ark) then
      raises (ValueError ("Expected " +:+ expected_ark +:+ ". Got "
                          +:+ ARK.ark self +:+ ".")) self w
    else Model_save_ARK now self w.

(** ** [Run.save] *)

Definition derive_directory (mesh_ID : string) (started_at : datetime)
    (ID : string) : string :=
  mesh_ID +:+ "/cache/" +:+ strftime_Ymd_HMS started_at +:+ "__" +:+ ID.

Definition Run_save (now : datetime) (self : Run.t) (w : World)
    : Outcome Run.t :=
  let saved := Model_save_Run false now self w in
  match raised saved with
  | Some _ => saved
  | None =>
      let self := self_after saved in
      let w := world_after saved in
      if negb (PyStr.truthy (Run.directory self)) then
        match related_pk "Mesh" (meshes w) (Run.mesh self) with
        | inl e => raises e self w
        | inr mesh_ID =>
            match Run.started_at self with
            | None =>
                raises (AttributeError "'NoneType' object has no attribute 'strftime'")
                       self w
            | Some started_at =>
                let self :=
                  Run.with_directory
                    (derive_directory mesh_ID started_at (Run.ID self)) self in
                Model_save_Run true now self w
            end
        end
      else Model_save_Run true now self w
  end.

(** ** The framework: deletion ([Model.delete] and its collector)

    The schema of models.py: every foreign key with its [on_delete] rule.
    The two many-to-many fields of Run are stored in through tables whose
    rows point to both ends and cascade. *)

Inductive ModelClass :=
| M_Mesh | M_Contributor | M_Contribution | M_Image | M_ARK | M_Run
| M_Run_contributors | M_Run_images.

Inductive OnDelete := CASCADE | DO_NOTHING.

Record ForeignKey := {
  fk_model : ModelClass;
  fk_field : string;
  fk_to : ModelClass;
  fk_on_delete : OnDelete
}.

Definition foreign_keys : list ForeignKey :=
  [ {| fk_model := M_Contribution; fk_field := "mesh";
       fk_to := M_Mesh; fk_on_delete := CASCADE |};
    {| fk_model := M_Contribution; fk_field := "contributor";
       fk_to := M_Contributor; fk_on_delete := CASCADE |};
    {| fk_model := M_Image; fk_field := "contribution";
       fk_to := M_Contribution; fk_on_delete := CASCADE |};
    {| fk_model := M_Run; fk_field := "mesh";
       fk_to := M_Mesh; fk_on_delete := CASCADE |};
    {| fk_model := M_Run; fk_field := "ark";
       fk_to := M_ARK; fk_on_delete := DO_NOTHING |};
    {| fk_model := M_Run_contributors; fk_field := "run";
       fk_to := M_Run; fk_on_delete := CASCADE |};
    {| fk_model := M_Run_contributors; fk_field := "contributor";
       fk_to := M_Contributor; fk_on_delete := CASCADE |};
    {| fk_model := M_Run_images; fk_field := "run";
       fk_to := M_Run; fk_on_delete := CASCADE |};
    {| fk_model := M_Run_images; fk_field := "image";
       fk_to := M_Image; fk_on_delete := CASCADE |} ].

(** A row of the database, named by its model and primary key. *)
Inductive Obj :=
| O_Mesh (ID : string)
| O_Contributor (ID : UUID)
| O_Contribution (ID : UUID)
| O_Image (ID : UUID)
| O_ARK (ark : string)
| O_Run (ID : string)
| O_Run_contributors (run : string) (contributor : UUID)
| O_Run_images (run : string) (image : UUID).

#[global] Instance ModelClass_eq_dec : EqDecision ModelClass.
Proof. solve_decision. Defined.

#[global] Instance OnDelete_eq_dec : EqDecision OnDelete.
Proof. solve_decision. Defined.

#[global] Instance Obj_eq_dec : EqDecision Obj.
Proof. solve_decision. Defined.

Definition model_of (o : Obj) : ModelClass :=
  match o with
  | O_Mesh _ => M_Mesh
  | O_Contributor _ => M_Contributor
  | O_Contribution _ => M_Contribution
  | O_Image _ => M_Image
  | O_ARK _ => M_ARK
  | O_Run _ => M_Run
  | O_Run_contributors _ _ => M_Run_contributors
  | O_Run_images _ _ => M_Run_images
  end.

(** The row a foreign-key field of a row points to. *)
Definition fk_value (w : World) (o : Obj) (field : string) : option Obj :=
  match o with
  | O_Contribution id =>
      match contributions w !! id with
      | Some c =>
          if String.eqb field "mesh" then Some (O_Mesh (Contribution.mesh c))
          else if String.eqb field "contributor"
               then Some (O_Contributor (Contribution.contributor c))
               else None
      | None => None
      end
  | O_Image id =>
      match images w !! id with
      | Some i =>
          if String.eqb field "contribution"
          then Some (O_Contribution (Image.contribution i)) else None
      | None => None
      end
  | O_Run id =>
      match runs w !! id with
      | Some r =>
          if String.eqb field "mesh" then Some (O_Mesh (Run.mesh r))
          else if String.eqb field "ark" then O_ARK <$> Run.ark r
               else None
      | None => None
      end
  | O_Run_contributors r c =>
      if String.eqb field "run" then Some (O_Run r)
      else if String.eqb field "contributor" then Some (O_Contributor c)
           else None
  | O_Run_images r i =>
      if String.eqb field "run" then Some (O_Run r)
      else if String.eqb field "image" then Some (O_Image i)
           else None
  | O_Mesh _ | O_Contributor _ | O_ARK _ => None
  end.

Definition all_objs (w : World) : list Obj :=
  (O_Mesh <$> (map_to_list (meshes w)).*1)
  ++ (O_Contributor <$> (map_to_list (contributors w)).*1)
  ++ (O_Contribution <$> (map_to_list (contributions w)).*1)
  ++ (O_Image <$> (map_to_list (images w)).*1)
  ++ (O_ARK <$> (map_to_list (arks w)).*1)
  ++ (O_Run <$> (map_to_list (runs w)).*1)
  ++ ((λ p, O_Run_contributors p.1 p.2) <$> elements (run_contributors w))
  ++ ((λ p, O_Run_images p.1 p.2) <$> elements (run_images w)).

(** Whether row [o] points to [target] through a foreign key that cascades. *)
Definition cascades_from (w : World) (target o : Obj) : bool :=
  existsb
    (λ fk, bool_decide (fk_model fk = model_of o)
           && bool_decide (fk_on_delete fk = CASCADE)
           && bool_decide (fk_value w o (fk_field fk) = Some target))
    foreign_keys.

Definition cascade_referrers (w : World) (target : Obj) : list Obj :=
  List.filter (cascades_from w target) (all_objs w).

(** The collector: the rows to delete, level by level. The schema has no
    cycle and its longest cascade chain has three links. *)
Fixpoint collect (fuel : nat) (w : World) (objs : list Obj) : list Obj :=
  match fuel with
  | O => objs
  | S fuel => objs ++ collect fuel w (objs ≫= cascade_referrers w)
  end.

Definition delete_row (o : Obj) (w : World) : World :=
  match o with
  | O_Mesh id => set_meshes (delete id (meshes w)) w
  | O_Contributor id => set_contributors (delete id (contributors w)) w
  | O_Contribution id => set_contributions (delete id (contributions w)) w
  | O_Image id => set_images (delete id (images w)) w
  | O_ARK a => set_arks (delete a (arks w)) w
  | O_Run id => set_runs (delete id (runs w)) w
  | O_Run_contributors r c =>
      set_run_contributors (run_contributors w ∖ {[ (r, c) ]}) w
  | O_Run_images r i => set_run_images (run_images w ∖ {[ (r, i) ]}) w
  end.

(** Whether the row is in its table. *)
Definition has_obj (w : World) (o : Obj) : bool :=
  match o with
  | O_Mesh id => has_row (meshes w) id
  | O_Contributor id => has_row (contributors w) id
  | O_Contribution id => has_row (contributions w) id
  | O_Image id => has_row (images w) id
  | O_ARK a => has_row (arks w) a
  | O_Run id => has_row (runs w) id
  | O_Run_contributors r c => bool_decide ((r, c) ∈ run_contributors w)
  | O_Run_images r i => bool_decide ((r, i) ∈ run_images w)
  end.

(** What may be collected when a Run is deleted: the Run and the rows of
    its two through tables. *)
Definition of_run (ID : string) (o : Obj) : Prop :=
  match o with
  | O_Run id => id = ID
  | O_Run_contributors r _ | O_Run_images r _ => r = ID
  | _ => False
  end.

Definition collector_depth : nat := 4.

(** [obj.delete()]: the collected rows are removed. The database refuses
    the deletion of a row that a [DO_NOTHING] key still points to (an ARK
    with its Run); that refusal is not modelled, and no property below
    deletes such a row. *)
Definition Model_delete (o : Obj) (w : World) : World :=
  foldr delete_row w (collect collector_depth w [o]).

(** The [on_delete] rule the schema declares for a field. *)
Definition on_delete_rule (m : ModelClass) (field : string) : option OnDelete :=
  fk_on_delete <$>
    List.find (λ fk, bool_decide (fk_model fk = m) && String.eqb (fk_field fk) field)
              foreign_keys.

(** Distance of a model from the roots of the schema along foreign keys. *)
Definition rank (m : ModelClass) : nat :=
  match m with
  | M_Mesh | M_Contributor | M_ARK => 0
  | M_Contribution | M_Run => 1
  | M_Image | M_Run_contributors => 2
  | M_Run_images => 3
  end.

Definition Model_save_Image (now : datetime) (self : Image.t) (w : World)
    : Outcome Image.t :=
  match choose_write true (Image.adding self)
          (has_row (images w) (Image.ID self)) with
  | INSERT =>
      let self1 := Image.with_state (Image.image self) (Some now) (Image.adding self) self in
      if has_row (images w) (Image.ID self) then
        raises (IntegrityError "tirtha_image.ID") self1 w
      else if negb (has_row (contributions w) (Image.contribution self)) then
        raises (IntegrityError "tirtha_image FOREIGN KEY") self1 w
      else
        let row := Image.with_state (Image.image self) (Some now) false self in
        returns row (set_images (<[Image.ID self := row]> (images w)) w)
  | UPDATE =>
      match Image.created_at self with
      | None => raises (IntegrityError "tirtha_image.created_at") self w
      | Some _ =>
          if negb (has_row (contributions w) (Image.contribution self)) then
            raises (IntegrityError "tirtha_image FOREIGN KEY") self w
          else
            let row :=
              Image.with_state (Image.image self) (Image.created_at self) false self in
            returns row (set_images (<[Image.ID self := row]> (images w)) w)
      end
  end.

(** ** Contribution intake *)

(** Modelled from the spec: the two ways an intake is rejected, a closed
    mesh and a banned contributor. *)
Inductive IntakeReason := MeshClosed | ContributorBanned.

(** Modelled from the spec: the IntakeRejected error of the taxonomy, next
    to the exceptions the persistence layer may raise. *)
Inductive IntakeError :=
| IntakeRejected (reason : IntakeReason)
| IntakeFailed (e : PyExc).

(** Modelled from the spec: one uploaded file, with the identifier
    allocated for its Image, the name it was uploaded under, and the
    picture. *)
Record Upload := {
  upload_ID : UUID;
  upload_filename : string;
  upload_picture : Picture
}.

(** Modelled from the spec: storing the accepted images of a
    contribution, each under the path [set_image] gives it. *)
Fixpoint store_images (now : datetime) (contribution : UUID)
    (uploads : list Upload) (w : World) : option PyExc * World :=
  match uploads with
  | [] => (None, w)
  | u :: rest =>
      let obj :=
        {| Image.ID := upload_ID u; Image.contribution := contribution;
           Image.image := ""; Image.created_at := None; Image.label := "";
           Image.remark := ""; Image.adding := true |} in
      match set_image w obj (upload_filename u) with
      | inl e => (Some e, w)
      | inr path =>
          let w := Storage_save (upload_picture u) path w in
          let saved :=
            Model_save_Image now (Image.with_state path None true obj) w in
          match raised saved with
          | Some e => (Some e, world_after saved)
          | None => store_images now contribution rest (world_after saved)
          end
      end
  end.

(** Modelled from the spec: the intake operation
    [intake(mesh, contributor, images) -> Contribution] of the Contribution
    Intake component is not part of models.py, which only declares the
    Contribution and Image tables it writes. Following the spec's words:
    the preconditions are [mesh.completed == false] and
    [contributor.banned == false]; when one is violated the intake fails
    with IntakeRejected, telling a closed mesh from a banned contributor,
    and creates no Contribution record; otherwise it records a
    Contribution for the pair and stores each image. [new_ID] is the
    identifier allocated for the Contribution. *)
Definition intake (now : datetime) (new_ID : UUID) (mesh : Mesh.t)
    (contributor : Contributor.t) (uploads : list Upload) (w : World)
    : (IntakeError + Contribution.t) * World :=
  if Mesh.completed mesh then (inl (IntakeRejected MeshClosed), w)
  else if Contributor.banned contributor then
    (inl (IntakeRejected ContributorBanned), w)
  else
    let contribution :=
      {| Contribution.ID := new_ID; Contribution.mesh := Mesh.ID mesh;
         Contribution.contributor := Contributor.ID contributor;
         Contribution.contributed_at := None;
         Contribution.processed := false;
         Contribution.processed_at := None;
         Contribution.adding := true |} in
    let saved := Model_save_Contribution now contribution w in
    match raised saved with
    | Some e => (inl (IntakeFailed e), world_after saved)
    | None =>
        match store_images now new_ID uploads (world_after saved) with
        | (Some e, w) => (inl (IntakeFailed e), w)
        | (None, w) => (inr (self_after saved), w)
        end
    end.

(** ** [Run.__repr__] *)

Section Repr.

(** [str(dt)] of a datetime; it depends on the microseconds and the time
    zone, which [datetime] does not record. *)
Variable str_datetime : datetime → string.

(** [format(x)] of an optional timestamp: [None] prints as [None]. *)
Definition format_timestamp (x : option datetime) : string :=
  match x with
  | Some dt => str_datetime dt
  | None => "None"
  end.

Definition nl : string := String "010"%char EmptyString.

Definition indent16 : string := "                ".
Definition indent20 : string := "                    ".

(** The f-string evaluates its fields in order: [self.mesh] fetches the
    Mesh and prints it with [Mesh.__str__] (its [verbose_id]);
    [self.ark] is [None] when the reference is unset, and [None.url]
    raises. *)
Definition Run_repr (w : World) (self : Run.t) : PyExc + string :=
  match meshes w !! Run.mesh self with
  | None => inl (DoesNotExist "Mesh")
  | Some mesh =>
      match Run.ark self with
      | None => inl (AttributeError "'NoneType' object has no attribute 'url'")
      | Some a =>
          match arks w !! a with
          | None => inl (DoesNotExist "ARK")
          | Some ark =>
              inr (nl +:+ indent16 +:+ "Run(" +:+ nl
                   +:+ indent20 +:+ Run.ID self +:+ "," +:+ nl
                   +:+ indent20 +:+ Mesh.verbose_id mesh +:+ "," +:+ nl
                   +:+ indent20 +:+ format_timestamp (Run.started_at self)
                   +:+ "," +:+ nl
                   +:+ indent20 +:+ format_timestamp (Run.ended_at self)
                   +:+ "," +:+ nl
                   +:+ indent20 +:+ Run.directory self +:+ "," +:+ nl
                   +:+ indent20 +:+ Run.status self +:+ "," +:+ nl
                   +:+ indent20 +:+ ARK.url ark +:+ nl
                   +:+ indent16 +:+ ")" +:+ nl +:+ indent16)
          end
      end
  end.

End Repr.

(** ** A small world for the scenarios *)

Module Scenario.

Definition t0 : datetime :=
  {| year := 2024; month := 3; day := 2; hour := 10; minute := 15; second := 0 |}.

Definition t1 : datetime :=
  {| year := 2024; month := 3; day := 2; hour := 10; minute := 15; second := 7 |}.

Definition settings : Mesh.ReconSettings :=
  {| Mesh.center_image := ""; Mesh.rotaX := 0; Mesh.rotaY := 0;
     Mesh.rotaZ := 0; Mesh.orientMesh := false; Mesh.minObsAng := 30;
     Mesh.denoise := false |}.

Definition thumb_path : string :=
  "models/M0000000000000001/M0000000000000001_thumb.png".

(** The Lingaraj Temple mesh, not saved yet. *)
Definition lingaraj : Mesh.t :=
  {| Mesh.ID := "M0000000000000001"; Mesh.name := "Lingaraj Temple";
     Mesh.description := "Placeholder Text"; Mesh.country := "India";
     Mesh.state := "Odisha"; Mesh.district := "Khordha";
     Mesh.preview := ""; Mesh.thumbnail := thumb_path;
     Mesh.verbose_id := "<auto-generated using country, state & district>";
     Mesh.status := "Pending"; Mesh.completed := false;
     Mesh.hidden := false; Mesh.recon := settings;
     Mesh.created_at := None; Mesh.updated_at := None;
     Mesh.reconstructed_at := None; Mesh.adding := true |}.

(** A second mesh for the same site, under another identifier. *)
Definition lingaraj_again : Mesh.t :=
  {| Mesh.ID := "M0000000000000002"; Mesh.name := "Lingaraj_Temple";
     Mesh.description := ""; Mesh.country := "India";
     Mesh.state := "Odisha"; Mesh.district := "Khordha";
     Mesh.preview := ""; Mesh.thumbnail := "";
     Mesh.verbose_id := ""; Mesh.status := "Pending";
     Mesh.completed := false; Mesh.hidden := false; Mesh.recon := settings;
     Mesh.created_at := None; Mesh.updated_at := None;
     Mesh.reconstructed_at := None; Mesh.adding := true |}.

Definition with_thumbnail (p : Picture) : World :=
  set_media (<[thumb_path := Readable p]> ∅) empty_world.

(** A wide strip: 1000 by 300 pixels. *)
Definition strip : Picture :=
  {| width := 1000; height := 300; orientation := 1; mode := "RGB" |}.

(** A landscape photograph: 1000 by 600 pixels. *)
Definition photo : Picture :=
  {| width := 1000; height := 600; orientation := 1; mode := "RGB" |}.

(** The same photograph in a colour mode PNG cannot hold. *)
Definition cmyk_photo : Picture :=
  {| width := 1000; height := 600; orientation := 1; mode := "CMYK" |}.

(** The world once the mesh has been saved with the photograph as its
    thumbnail. *)
Definition w_mesh : World :=
  world_after (Mesh_save pillow_registry t0 t0 lingaraj (with_thumbnail photo)).

Definition run : Run.t :=
  {| Run.ID := "R0000000000000001"; Run.mesh := "M0000000000000001";
     Run.ark := None; Run.started_at := None; Run.ended_at := None;
     Run.directory := ""; Run.status := "Processing";
     Run.rotaX := Some 0; Run.rotaY := Some 0; Run.rotaZ := Some 0;
     Run.adding := true |}.

(** A second Run of the same Mesh. *)
Definition run_again : Run.t :=
  {| Run.ID := "R0000000000000002"; Run.mesh := "M0000000000000001";
     Run.ark := None; Run.started_at := None; Run.ended_at := None;
     Run.directory := ""; Run.status := "Processing";
     Run.rotaX := Some 0; Run.rotaY := Some 0; Run.rotaZ := Some 0;
     Run.adding := true |}.


Definition mint (naan shoulder assigned_name ark : string) : ARK.t :=
  {| ARK.ark := ark; ARK.naan := naan; ARK.shoulder := shoulder;
     ARK.assigned_name := assigned_name; ARK.created_at := None;
     ARK.url := "https://tirtha.niser.ac.in/static/models/M0000000000000001/published/M0000000000000001.glb";
     ARK.metadata := "{}"; ARK.commitment := ARK.def_commit;
     ARK.adding := true |}.

Definition contributor : Contributor.t :=
  {| Contributor.ID := 7%N; Contributor.name := "A Contributor";
     Contributor.email := "contributor@example.org";
     Contributor.active := true; Contributor.created_at := Some t0;
     Contributor.updated_at := Some t0; Contributor.banned := false;
     Contributor.ban_reason := ""; Contributor.adding := false |}.

Definition banned_contributor : Contributor.t :=
  {| Contributor.ID := 8%N; Contributor.name := "B Contributor";
     Contributor.email := "banned@example.org";
     Contributor.active := true; Contributor.created_at := Some t0;
     Contributor.updated_at := Some t0; Contributor.banned := true;
     Contributor.ban_reason := "spam"; Contributor.adding := false |}.

Definition contribution : Contribution.t :=
  {| Contribution.ID := 11%N; Contribution.mesh := "M0000000000000001";
     Contribution.contributor := 7%N; Contribution.contributed_at := Some t0;
     Contribution.processed := false; Contribution.processed_at := None;
     Contribution.adding := false |}.

(** The saved mesh with one contribution by the contributor. *)
Definition w_contribution : World :=
  set_contributions (<[11%N := contribution]> ∅)
    (set_contributors (<[7%N := contributor]> ∅) w_mesh).

Definition image : Image.t :=
  {| Image.ID := 0x12345678abcdef0123456789abcdef01%N;
     Image.contribution := 11%N; Image.image := "";
     Image.created_at := None; Image.label := ""; Image.remark := "";
     Image.adding := true |}.

End Scenario.

(** * Properties *)

(** ** Strings and paths *)

Section StringFacts.

Implicit Types (s t : string) (c : ascii).

Lemma str_app_nil_l s : "" +:+ s = s.
Proof. reflexivity. Qed.

Lemma str_app_cons x s t : String x s +:+ t = String x (s +:+ t).
Proof. reflexivity. Qed.

Lemma str_app_assoc s t u : (s +:+ t) +:+ u = s +:+ (t +:+ u).
Proof.
  induction s as [|x s IH]; [done |]. rewrite !str_app_cons. by f_equal.
Qed.

Lemma startswith_app c s t :
  s ≠ "" → PyStr.startswith c (s +:+ t) = PyStr.startswith c s.
Proof. by destruct s. Qed.

Lemma str_app_nonempty_r s t : t ≠ "" → s +:+ t ≠ "".
Proof. destruct s; [done |]. by rewrite str_app_cons. Qed.

Lemma endswith_app c s t :
  t ≠ "" → PyStr.endswith c (s +:+ t) = PyStr.endswith c t.
Proof.
  intros Ht. induction s as [|x s IH]; [done |].
  rewrite str_app_cons. pose proof (str_app_nonempty_r s t Ht) as Hne.
  simpl. rewrite IH. by destruct (s +:+ t).
Qed.

Lemma truthy_nonempty s : PyStr.truthy s = true ↔ s ≠ "".
Proof. destruct s; simpl; split; congruence. Qed.

Lemma truthy_app_r s t : t ≠ "" → PyStr.truthy (s +:+ t) = true.
Proof. intros Ht%(str_app_nonempty_r s). by apply truthy_nonempty. Qed.

Lemma os_path_join_relative a b :
  a ≠ "" → PyStr.endswith "/" a = false → PyStr.startswith "/" b = false →
  os_path_join a b = a +:+ "/" +:+ b.
Proof.
  intros Ha He Hs. unfold os_path_join. rewrite Hs, He.
  apply truthy_nonempty in Ha. by rewrite Ha.
Qed.

Lemma contains_startswith c s :
  PyStr.contains c s = false → PyStr.startswith c s = false.
Proof. destruct s; simpl; [done |]. by intros [? _]%orb_false_iff. Qed.

Lemma contains_endswith c s :
  PyStr.contains c s = false → PyStr.endswith c s = false.
Proof.
  induction s as [|x s IH]; simpl; [done |].
  intros [Hx Hs]%orb_false_iff. destruct s; [done | by apply IH].
Qed.

Lemma split_nonempty c s : PyStr.split c s ≠ [].
Proof.
  destruct s as [|x s]; simpl; [done |].
  destruct (Ascii.eqb x c); [done |]. by destruct (PyStr.split c s).
Qed.

Lemma split_cons c x s :
  PyStr.split c (String x s)
  = if Ascii.eqb x c then "" :: PyStr.split c s
    else match PyStr.split c s with
         | tok :: toks => String x tok :: toks
         | [] => [String x ""]
         end.
Proof. reflexivity. Qed.

Lemma last_cons_ne (l : list string) a d :
  l ≠ [] → List.last (a :: l) d = List.last l d.
Proof. by destruct l. Qed.

(** The last token of a split holds no separator and is the whole string
    or what follows its last separator. *)
Lemma split_last_token c s :
  let tok := PyStr.last_token (PyStr.split c s) in
  PyStr.contains c tok = false
  ∧ (s = tok ∨ ∃ before, s = before +:+ String c tok).
Proof.
  cbv zeta. unfold PyStr.last_token.
  cut (PyStr.contains c (List.last (PyStr.split c s) "") = false
       ∧ ((PyStr.split c s = [s] ∧ List.last (PyStr.split c s) "" = s)
          ∨ (∃ hd tl before, PyStr.split c s = hd :: tl ∧ tl ≠ []
               ∧ s = before +:+ String c (List.last (PyStr.split c s) "")))).
  { intros [Hc [[_ Hs] | (hd & tl & before & _ & _ & Hs)]]; split; eauto. }
  induction s as [|x s [IHc IH]]; [simpl; eauto |].
  rewrite split_cons. destruct (Ascii.eqb x c) eqn:Hx.
  - rewrite last_cons_ne by apply split_nonempty.
    split; [exact IHc |]. right. apply Ascii.eqb_eq in Hx. subst x.
    destruct IH as [[Hs Hl] | (hd & tl & before & Hs & Htl & Hl)].
    + exists "", (PyStr.split c s), "".
      split; [done |]. split; [apply split_nonempty |]. by rewrite Hl.
    + exists "", (PyStr.split c s), (String c before).
      split; [done |]. split; [apply split_nonempty |].
      rewrite str_app_cons. by f_equal.
  - destruct IH as [[Hs Hl] | (hd & tl & before & Hs & Htl & Hl)].
    + rewrite Hs. rewrite Hs in IHc. simpl in IHc. simpl.
      rewrite Hx. split; [exact IHc | by left].
    + rewrite Hs in IHc, Hl |- *.
      rewrite last_cons_ne in IHc by done.
      rewrite last_cons_ne in Hl by done.
      rewrite last_cons_ne by done.
      split; [exact IHc |]. right. exists (String x hd), tl, (String x before).
      split; [done |]. split; [done |]. rewrite str_app_cons. by f_equal.
Qed.

Lemma hexdigit_not_slash n : hexdigit n ≠ "/"%char.
Proof.
  destruct n as [|p]; [discriminate |]. unfold hexdigit.
  do 5 (try (destruct p as [p|p|]; try discriminate)).
Qed.

Lemma str_UUID_head u :
  ∃ rest, str_UUID u = String (hexdigit (nibble u 31)) rest.
Proof.
  unfold str_UUID.
  change (hex_run u 31 8)
    with (String (hexdigit (nibble u 31)) (hex_run u (N.pred 31) 7)).
  rewrite str_app_cons. eauto.
Qed.

Lemma str_UUID_startswith u : PyStr.startswith "/" (str_UUID u) = false.
Proof.
  destruct (str_UUID_head u) as [rest ->]. unfold PyStr.startswith.
  apply Ascii.eqb_neq, hexdigit_not_slash.
Qed.

Lemma str_UUID_nonempty u : str_UUID u ≠ "".
Proof. by destruct (str_UUID_head u) as [rest ->]. Qed.

Lemma replace_contains a b s :
  a ≠ b → PyStr.contains a (PyStr.replace a b s) = false.
Proof.
  intros Hab. induction s as [|x s IH]; simpl; [done |].
  rewrite IH, orb_false_r. destruct (Ascii.eqb x a) eqn:E; [| done].
  apply Ascii.eqb_neq. congruence.
Qed.

Lemma replace_length a b s :
  String.length (PyStr.replace a b s) = String.length s.
Proof. induction s as [|x s IH]; simpl; [done | by rewrite IH]. Qed.

Lemma replace_get a b s (i : nat) :
  String.get i (PyStr.replace a b s)
  = (λ x, if Ascii.eqb x a then b else x) <$> String.get i s.
Proof.
  revert i. induction s as [|x s IH]; intros i; simpl; [done |].
  destruct i; simpl; [done | apply IH].
Qed.

End StringFacts.

(** ** Upload paths *)

(** C10. For a Mesh whose identifier is a plain path component (not empty,
    neither starting nor ending with the separator, as every ShortUUID
    is), the preview is uploaded to [models/{ID}/{ID}_prev.png] and the
    thumbnail to [models/{ID}/{ID}_thumb.png], whatever name and extension
    the file was uploaded under. *)
Theorem upload_paths_fixed_png (obj : Mesh.t) (filename : string) :
  Mesh.ID obj ≠ "" →
  PyStr.startswith "/" (Mesh.ID obj) = false →
  PyStr.endswith "/" (Mesh.ID obj) = false →
  set_preview obj filename
    = "models/" +:+ Mesh.ID obj +:+ "/" +:+ Mesh.ID obj +:+ "_prev.png"
  ∧ set_thumbnail obj filename
    = "models/" +:+ Mesh.ID obj +:+ "/" +:+ Mesh.ID obj +:+ "_thumb.png".
Proof.
  intros Hne Hs He. unfold set_preview, set_thumbnail.
  assert (Ha : "models/" +:+ Mesh.ID obj ≠ "") by done.
  assert (Hae : PyStr.endswith "/" ("models/" +:+ Mesh.ID obj) = false)
    by (by rewrite endswith_app).
  split.
  - rewrite os_path_join_relative; [by rewrite str_app_assoc | done | done |].
    by rewrite startswith_app.
  - rewrite os_path_join_relative; [by rewrite str_app_assoc | done | done |].
    by rewrite startswith_app.
Qed.

Lemma upload_paths_fixed_png_witness :
  set_preview Scenario.lingaraj "temple front.JPG"
    = "models/M0000000000000001/M0000000000000001_prev.png"
  ∧ set_thumbnail Scenario.lingaraj "temple front.JPG"
    = "models/M0000000000000001/M0000000000000001_thumb.png".
Proof.
  apply (upload_paths_fixed_png Scenario.lingaraj "temple front.JPG");
    [discriminate | reflexivity | reflexivity].
Defined.

Lemma hex_run_length u hi n : String.length (hex_run u hi n) = n.
Proof.
  revert hi. induction n as [|n IH]; intros hi; [done |].
  simpl. by rewrite IH.
Qed.

Lemma hex_run_get u hi (n j : nat) :
  (j < n)%nat →
  String.get j (hex_run u hi n) = Some (hexdigit (nibble u (hi - N.of_nat j))).
Proof.
  revert hi j. induction n as [|n IH]; intros hi j Hj; [lia |].
  change (hex_run u hi (S n))
    with (String (hexdigit (nibble u hi)) (hex_run u (N.pred hi) n)).
  destruct j as [|j].
  - simpl. by rewrite N.sub_0_r.
  - simpl. rewrite IH by lia. do 3 f_equal. lia.
Qed.

(** The digit [hexdigit] prints for a nibble is the character of
    [0123456789abcdef] with that index, and the nibble is the digit of the
    number in base 16. *)
Lemma hexdigit_nibble u j :
  String.get (N.to_nat (u / 16 ^ j mod 16)) "0123456789abcdef"
  = Some (hexdigit (nibble u j)).
Proof.
  unfold nibble.
  change 15%N with (N.ones 4).
  rewrite N.land_ones, N.shiftr_div_pow2, N.pow_mul_r.
  change (2 ^ 4)%N with 16%N.
  assert (Hlt : (u / 16 ^ j mod 16 < 16)%N) by (apply N.mod_lt; lia).
  destruct (u / 16 ^ j mod 16)%N as [|p]; [reflexivity |].
  do 4 (destruct p as [p | p |]; try reflexivity); lia.
Qed.

Lemma str_UUID_groups u :
  str_UUID u
  = String.substring 0 8 (hex_run u 31 32) +:+ "-"
    +:+ String.substring 8 4 (hex_run u 31 32) +:+ "-"
    +:+ String.substring 12 4 (hex_run u 31 32) +:+ "-"
    +:+ String.substring 16 4 (hex_run u 31 32) +:+ "-"
    +:+ String.substring 20 12 (hex_run u 31 32).
Proof. reflexivity. Qed.

Lemma lower_length s : String.length (PyStr.lower s) = String.length s.
Proof. induction s as [|x s IH]; simpl; [done | by rewrite IH]. Qed.

Lemma lower_get s (i : nat) :
  String.get i (PyStr.lower s) = PyStr.lower_char <$> String.get i s.
Proof.
  revert i. induction s as [|x s IH]; intros i; simpl; [done |].
  destruct i; simpl; [done | apply IH].
Qed.

Lemma contains_get c s (i : nat) :
  PyStr.contains c s = false → String.get i s ≠ Some c.
Proof.
  revert i. induction s as [|x s IH]; intros i; simpl; [done |].
  intros [Hx Hs]%orb_false_iff. destruct i; simpl.
  - intros [= ->]. by rewrite Ascii.eqb_refl in Hx.
  - by apply IH.
Qed.

(** C9. When the Image's Contribution and that Contribution's Mesh exist,
    the image is stored under [models/{MeshID}/images/{ImageID}.{ext}]:
    [MeshID] is the Mesh of the Image's Contribution; [ImageID] is the
    Image's identifier as 32 lower-case hexadecimal digits, most
    significant first, in groups of 8, 4, 4, 4 and 12 digits joined by
    hyphens; [ext] is the last dot-separated token of the uploaded name
    (it holds no dot and is the whole name or what follows its last dot)
    with every capital letter replaced by its small letter and every
    other character kept. *)
Theorem set_image_path (w : World) (obj : Image.t) (filename : string)
    (c : Contribution.t) :
  contributions w !! Image.contribution obj = Some c →
  has_row (meshes w) (Contribution.mesh c) = true →
  ∃ hex token ext,
    set_image w obj filename
      = inr ("models/" +:+ Contribution.mesh c +:+ "/images/"
             +:+ String.substring 0 8 hex +:+ "-"
             +:+ String.substring 8 4 hex +:+ "-"
             +:+ String.substring 12 4 hex +:+ "-"
             +:+ String.substring 16 4 hex +:+ "-"
             +:+ String.substring 20 12 hex
             +:+ "." +:+ ext)
    ∧ String.length hex = 32%nat
    ∧ (∀ j : nat, (j < 32)%nat →
         String.get j hex
         = String.get
             (N.to_nat (Image.ID obj / 16 ^ N.of_nat (31 - j) mod 16))
             "0123456789abcdef")
    ∧ (∀ i : nat, String.get i token ≠ Some "."%char)
    ∧ (filename = token ∨ ∃ before, filename = before +:+ "." +:+ token)
    ∧ String.length ext = String.length token
    ∧ (∀ (i : nat) x, String.get i token = Some x →
         String.get i ext
         = Some (let n := N_of_ascii x in
                 if ((65 <=? n) && (n <=? 90)
                     || (192 <=? n) && (n <=? 222) && negb (n =? 215))%N
                 then ascii_of_N (n + 32) else x)).
Proof.
  intros Hc Hm.
  exists (hex_run (Image.ID obj) 31 32),
         (PyStr.last_token (PyStr.split "." filename)),
         (PyStr.lower (PyStr.last_token (PyStr.split "." filename))).
  destruct (split_last_token "." filename) as [Hdot Hfrom].
  split; [| split; [| split; [| split; [| split; [| split]]]]].
  - unfold set_image, related_pk. rewrite Hc, Hm. f_equal.
    rewrite os_path_join_relative.
    + rewrite str_UUID_groups, !str_app_assoc. reflexivity.
    + discriminate.
    + rewrite endswith_app by (apply str_app_nonempty_r; discriminate).
      rewrite endswith_app by discriminate. reflexivity.
    + rewrite startswith_app by apply str_UUID_nonempty.
      apply str_UUID_startswith.
  - apply hex_run_length.
  - intros j Hj. rewrite hex_run_get by done. rewrite hexdigit_nibble.
    do 3 f_equal. lia.
  - intros i. by apply contains_get.
  - exact Hfrom.
  - apply lower_length.
  - intros i x Hx. rewrite lower_get, Hx. simpl. f_equal.
    unfold PyStr.lower_char.
    destruct ((65 <=? N_of_ascii x) && (N_of_ascii x <=? 90))%N; [done |].
    simpl. by destruct ((192 <=? N_of_ascii x) && _ && _)%N.
Qed.

Lemma set_image_path_witness :
  (∃ hex token ext,
     set_image Scenario.w_contribution Scenario.image "IMG_0042.tar.JPG"
       = inr ("models/" +:+ "M0000000000000001" +:+ "/images/"
              +:+ String.substring 0 8 hex +:+ "-"
              +:+ String.substring 8 4 hex +:+ "-"
              +:+ String.substring 12 4 hex +:+ "-"
              +:+ String.substring 16 4 hex +:+ "-"
              +:+ String.substring 20 12 hex
              +:+ "." +:+ ext)
     ∧ String.length hex = 32%nat
     ∧ (∀ j : nat, (j < 32)%nat →
          String.get j hex
          = String.get
              (N.to_nat (Image.ID Scenario.image / 16 ^ N.of_nat (31 - j) mod 16))
              "0123456789abcdef")
     ∧ (∀ i : nat, String.get i token ≠ Some "."%char)
     ∧ ("IMG_0042.tar.JPG" = token
        ∨ ∃ before, "IMG_0042.tar.JPG" = before +:+ "." +:+ token)
     ∧ String.length ext = String.length token
     ∧ (∀ (i : nat) x, String.get i token = Some x →
          String.get i ext
          = Some (let n := N_of_ascii x in
                  if ((65 <=? n) && (n <=? 90)
                      || (192 <=? n) && (n <=? 222) && negb (n =? 215))%N
                  then ascii_of_N (n + 32) else x)))
  ∧ set_image Scenario.w_contribution Scenario.image "IMG_0042.tar.JPG"
    = inr "models/M0000000000000001/images/12345678-abcd-ef01-2345-6789abcdef01.jpg".
Proof.
  split.
  - apply (set_image_path Scenario.w_contribution Scenario.image
             "IMG_0042.tar.JPG" Scenario.contribution);
      vm_compute; reflexivity.
  - vm_compute. reflexivity.
Defined.

(** ** [ARK.save] *)

Lemma Model_save_ARK_stores now self w :
  raised (Model_save_ARK now self w) = None →
  ∃ created,
    arks (world_after (Model_save_ARK now self w)) !! ARK.ark self
      = Some (ARK.with_state created false self).
Proof.
  unfold Model_save_ARK.
  destruct (choose_write _ _ _); simpl.
  - destruct (has_row _ _); simpl; [discriminate |].
    intros _. eexists. apply lookup_insert_eq.
  - destruct (ARK.created_at self); simpl; [| discriminate].
    intros _. eexists. apply lookup_insert_eq.
Qed.

(** C1 (amended). A save of an ARK record succeeds only if [ark] is the
    concatenation [naan + shoulder + assigned_name] and [shoulder] begins
    with the separator, and the row it stores satisfies both; a save that
    violates either condition raises a [ValueError] and leaves the
    instance and the world as they were, whether the record is new or
    already stored. Minting 99999 + /fk4 + abc123 stores the record under
    [99999/fk4abc123]; minting with the shoulder [fk4] raises. *)
Theorem ARK_save_validates (now : datetime) (self : ARK.t) (w : World) :
  let out := ARK_save now self w in
  let consistent :=
    PyStr.startswith "/" (ARK.shoulder self) = true
    ∧ ARK.ark self
      = ARK.naan self +:+ ARK.shoulder self +:+ ARK.assigned_name self in
  (raised out = None →
     consistent
     ∧ ∃ row, arks (world_after out) !! ARK.ark self = Some row
         ∧ PyStr.startswith "/" (ARK.shoulder row) = true
         ∧ ARK.ark row
           = ARK.naan row +:+ ARK.shoulder row +:+ ARK.assigned_name row)
  ∧ (¬ consistent →
       ∃ msg, raised out = Some (ValueError msg)
         ∧ world_after out = w ∧ self_after out = self)
  ∧ (let minted :=
       ARK_save Scenario.t0
         (Scenario.mint "99999" "/fk4" "abc123" "99999/fk4abc123")
         empty_world in
     raised minted = None
     ∧ ARK.ark <$> arks (world_after minted) !! "99999/fk4abc123"
       = Some "99999/fk4abc123")
  ∧ (∀ ark, ∃ msg,
       raised (ARK_save Scenario.t0 (Scenario.mint "99999" "fk4" "abc123" ark)
                 empty_world)
       = Some (ValueError msg)).
Proof.
  cbv zeta. unfold ARK_save.
  split; [| split; [| split; [by vm_compute | intros ark; by eexists]]].
  - destruct (PyStr.startswith "/" (ARK.shoulder self)) eqn:Hs; simpl;
      [| discriminate].
    destruct (String.eqb _ _) eqn:He; simpl; [| discriminate].
    apply String.eqb_eq in He. intros Hok. split; [done |].
    destruct (Model_save_ARK_stores now self w Hok) as [created Hrow].
    eexists. split; [exact Hrow |]. simpl. done.
  - intros Hbad.
    destruct (PyStr.startswith "/" (ARK.shoulder self)) eqn:Hs; simpl;
      [| by eexists].
    destruct (String.eqb _ _) eqn:He; simpl; [| by eexists].
    apply String.eqb_eq in He. by destruct Hbad.
Qed.

(** C1, as stated, fails on the class of the exception: minting with the
    shoulder [fk4] raises a [ValueError], not a [ValidationError]. *)
Lemma ARK_save_raises_ValueError :
  ∃ e,
    raised (ARK_save Scenario.t0
              (Scenario.mint "99999" "fk4" "abc123" "99999fk4abc123")
              empty_world) = Some e
    ∧ exc_class e = "ValueError"
    ∧ exc_class e ≠ "ValidationError".
Proof. eexists. split; [reflexivity |]. split; [reflexivity | discriminate]. Qed.

(** ** [Mesh.save] *)

Lemma verbose_id_taken_insert (w w' : World) (self self' row : Mesh.t) :
  meshes w' = <[Mesh.ID self := row]> (meshes w) →
  Mesh.ID self' = Mesh.ID self →
  Mesh.verbose_id self' = Mesh.verbose_id self →
  verbose_id_taken w' self' = verbose_id_taken w self.
Proof.
  intros Hm Hid Hv. unfold verbose_id_taken. rewrite Hm, Hid, Hv.
  apply bool_decide_ext. unfold map_Exists.
  split; intros (pk & other & Hl & Hne & He); exists pk, other.
  - by rewrite lookup_insert_ne in Hl.
  - by rewrite lookup_insert_ne.
Qed.

Lemma verbose_id_taken_true (w : World) (self : Mesh.t) pk other :
  meshes w !! pk = Some other → pk ≠ Mesh.ID self →
  Mesh.verbose_id other = Mesh.verbose_id self →
  verbose_id_taken w self = true.
Proof.
  intros Hl Hne He. apply bool_decide_eq_true. by exists pk, other.
Qed.

Lemma has_row_true {K V} `{Countable K} (t : gmap K V) (pk : K) :
  has_row t pk = true ↔ is_Some (t !! pk).
Proof.
  unfold has_row. destruct (t !! pk); split; try done.
Qed.

Lemma has_row_insert {K V} `{Countable K} (t : gmap K V) (pk : K) (v : V) :
  has_row (<[pk := v]> t) pk = true.
Proof. unfold has_row. by rewrite lookup_insert_eq. Qed.

(** A failed persistence of a Mesh row is an [IntegrityError] and writes
    nothing; the in-memory [verbose_id] is kept either way. *)
Lemma Model_save_Mesh_fail now self w e :
  raised (Model_save_Mesh now self w) = Some e →
  (∃ c, e = IntegrityError c)
  ∧ world_after (Model_save_Mesh now self w) = w.
Proof.
  unfold Model_save_Mesh.
  destruct (choose_write _ _ _); simpl.
  - destruct (has_row _ _); simpl; [intros [= <-]; eauto |].
    destruct (verbose_id_taken w self); simpl; [intros [= <-]; eauto |].
    discriminate.
  - destruct (Mesh.created_at self); simpl; [| intros [= <-]; eauto].
    destruct (verbose_id_taken w self); simpl; [intros [= <-]; eauto |].
    discriminate.
Qed.

Lemma Model_save_Mesh_fields now self w :
  let row := self_after (Model_save_Mesh now self w) in
  Mesh.verbose_id row = Mesh.verbose_id self
  ∧ Mesh.ID row = Mesh.ID self
  ∧ Mesh.thumbnail row = Mesh.thumbnail self.
Proof.
  unfold Model_save_Mesh.
  destruct (choose_write _ _ _); simpl.
  - destruct (has_row _ _); simpl; [done |].
    by destruct (verbose_id_taken w self).
  - destruct (Mesh.created_at self); simpl; [| done].
    by destruct (verbose_id_taken w self).
Qed.

Lemma Model_save_Mesh_ok now self w :
  raised (Model_save_Mesh now self w) = None →
  let row := self_after (Model_save_Mesh now self w) in
  world_after (Model_save_Mesh now self w)
    = set_meshes (<[Mesh.ID self := row]> (meshes w)) w
  ∧ Mesh.adding row = false
  ∧ is_Some (Mesh.created_at row)
  ∧ verbose_id_taken w self = false.
Proof.
  unfold Model_save_Mesh.
  destruct (choose_write _ _ _); simpl.
  - destruct (has_row _ _); simpl; [discriminate |].
    destruct (verbose_id_taken w self); simpl; [discriminate |]. eauto.
  - destruct (Mesh.created_at self) eqn:Hc; simpl; [| discriminate].
    destruct (verbose_id_taken w self); simpl; [discriminate |]. eauto.
Qed.

(** Re-saving a row that was just persisted succeeds, also after a write
    to the media storage. *)
Lemma Model_save_Mesh_again now now' self w (m : gmap string File) :
  raised (Model_save_Mesh now self w) = None →
  let saved := Model_save_Mesh now self w in
  raised (Model_save_Mesh now' (self_after saved)
            (set_media m (world_after saved))) = None.
Proof.
  intros Hok. cbv zeta.
  destruct (Model_save_Mesh_ok now self w Hok) as (Hw & Hadd & [c Hc] & Htaken).
  destruct (Model_save_Mesh_fields now self w) as (Hv & Hid & _).
  set (row := self_after (Model_save_Mesh now self w)) in *.
  unfold Model_save_Mesh at 1.
  rewrite Hadd, Hw. simpl. rewrite Hid, has_row_insert. simpl.
  rewrite Hc.
  rewrite (verbose_id_taken_insert w _ self row row); [| done | done | done].
  by rewrite Htaken.
Qed.

Lemma Mesh_save_fields registry now now' self w :
  let out := Mesh_save registry now now' self w in
  Mesh.verbose_id (self_after out) = derive_verbose_id self
  ∧ Mesh.ID (self_after out) = Mesh.ID self
  ∧ Mesh.thumbnail (self_after out) = Mesh.thumbnail self.
Proof.
  cbv zeta. unfold Mesh_save.
  set (self1 := Mesh.with_verbose_id (derive_verbose_id self) self).
  destruct (Model_save_Mesh_fields now self1 w) as (Hv & Hid & Ht).
  set (saved := Model_save_Mesh now self1 w) in *.
  assert (Hsaved : Mesh.verbose_id (self_after saved) = derive_verbose_id self
                   ∧ Mesh.ID (self_after saved) = Mesh.ID self
                   ∧ Mesh.thumbnail (self_after saved) = Mesh.thumbnail self)
    by done.
  destruct (raised saved); [done |].
  destruct (PyStr.truthy _); [| done].
  destruct (PILImage_open _ _) as [e | image]; [done |].
  destruct (thumbnail_size _ _) as [e | new_size]; [done |].
  destruct (Picture_save _ _ _ _) as [[e2 |] w2] eqn:Hwrite; [done |].
  match goal with
  | |- context [Model_save_Mesh now' ?s ?w'] =>
      destruct (Model_save_Mesh_fields now' s w') as (Hv' & Hid' & Ht')
  end.
  rewrite Hv', Hid', Ht'. done.
Qed.

(** C5. Every save of a Mesh recomputes [verbose_id] from country, state,
    district and name joined by double underscores, each space replaced by
    an underscore, whatever the instance held before and whether or not
    the save succeeds; a successful save stores the row with that slug;
    and when another Mesh row already holds the slug the save raises an
    [IntegrityError] and writes nothing. The Lingaraj Temple mesh gets
    [India__Odisha__Khordha__Lingaraj_Temple], and a second mesh that
    yields the same slug is refused on the unique [verbose_id]. *)
Theorem Mesh_save_verbose_id (registry : Registry) (now now' : datetime) (self : Mesh.t) (w : World) :
  let out := Mesh_save registry now now' self w in
  let joined :=
    Mesh.country self +:+ "__" +:+ Mesh.state self +:+ "__"
    +:+ Mesh.district self +:+ "__" +:+ Mesh.name self in
  let slug := PyStr.replace " " "_" joined in
  Mesh.verbose_id (self_after out) = slug
  ∧ PyStr.contains " " slug = false
  ∧ (∀ i : nat,
       String.get i slug
       = (λ x, if Ascii.eqb x " " then "_"%char else x) <$> String.get i joined)
  ∧ (raised out = None →
       ∃ row, meshes (world_after out) !! Mesh.ID self = Some row
         ∧ Mesh.verbose_id row = slug)
  ∧ (∀ pk other,
       meshes w !! pk = Some other → pk ≠ Mesh.ID self →
       Mesh.verbose_id other = slug →
       ∃ c, raised out = Some (IntegrityError c) ∧ world_after out = w)
  ∧ Mesh.verbose_id
      (self_after (Mesh_save pillow_registry Scenario.t0 Scenario.t1 Scenario.lingaraj
                     (Scenario.with_thumbnail Scenario.photo)))
    = "India__Odisha__Khordha__Lingaraj_Temple"
  ∧ raised (Mesh_save pillow_registry Scenario.t0 Scenario.t1 Scenario.lingaraj_again
              Scenario.w_mesh)
    = Some (IntegrityError "tirtha_mesh.verbose_id").
Proof.
  cbv zeta.
  destruct (Mesh_save_fields registry now now' self w) as (Hv & Hid & Ht).
  split; [exact Hv |].
  split; [by apply replace_contains |].
  split; [intros i; apply replace_get |].
  split; [| split; [| split; [by vm_compute | by vm_compute]]].
  - (* a successful save stores the slug *)
    unfold Mesh_save.
    set (self1 := Mesh.with_verbose_id (derive_verbose_id self) self).
    pose proof (Model_save_Mesh_ok now self1 w) as Hok.
    destruct (Model_save_Mesh_fields now self1 w) as (Hv1 & Hid1 & _).
    set (saved := Model_save_Mesh now self1 w) in *.
    destruct (raised saved) eqn:Hr; [intros ?; congruence |].
    destruct (Hok eq_refl) as (Hw & _).
    assert (Hstored : ∃ row, meshes (world_after saved) !! Mesh.ID self = Some row
                        ∧ Mesh.verbose_id row = derive_verbose_id self).
    { exists (self_after saved). rewrite Hw. simpl. split; [| done].
      apply lookup_insert_eq. }
    destruct (PyStr.truthy _); [| intros _; exact Hstored].
    destruct (PILImage_open _ _) as [e | image]; [discriminate |].
    destruct (thumbnail_size _ _) as [e | new_size]; [discriminate |].
    destruct (Picture_save _ _ _ _) as [[e2 |] w2] eqn:Hwrite; [discriminate |].
    intros Hok2.
    match type of Hok2 with
    | raised (Model_save_Mesh now' ?s ?w') = None =>
        destruct (Model_save_Mesh_ok now' s w' Hok2) as (Hw2 & _);
        destruct (Model_save_Mesh_fields now' s w') as (Hv2 & Hid2 & _)
    end.
    eexists. rewrite Hw2. simpl. rewrite Hid1. simpl. split.
    + apply lookup_insert_eq.
    + by rewrite Hv2.
  - (* a collision is refused *)
    intros pk other Hl Hne He. unfold Mesh_save.
    set (self1 := Mesh.with_verbose_id (derive_verbose_id self) self).
    assert (Htaken : verbose_id_taken w self1 = true)
      by (by apply (verbose_id_taken_true w self1 pk other)).
    pose proof (Model_save_Mesh_ok now self1 w) as Hok.
    pose proof (Model_save_Mesh_fail now self1 w) as Hfail.
    destruct (raised (Model_save_Mesh now self1 w)) as [e |] eqn:Hr.
    + destruct (Hfail e eq_refl) as ([c ->] & Hw). rewrite Hr. eauto.
    + destruct (Hok eq_refl) as (_ & _ & _ & Hfree). congruence.
Qed.

(** ** The thumbnail *)

Lemma int_of_float_error x e :
  int_of_float x = inl e → e = OverflowError ∨ ∃ msg, e = ValueError msg.
Proof.
  unfold int_of_float. destruct (Prim2SF x); intros [= <-]; eauto.
Qed.

Lemma exif_transpose_orientation p : orientation (exif_transpose p) = 1.
Proof. unfold exif_transpose. by destruct (_ && _). Qed.

Lemma exif_transpose_mode p : mode (exif_transpose p) = mode p.
Proof. unfold exif_transpose. by destruct (_ && _). Qed.

Lemma exif_transpose_positive p :
  0 < width p → 0 < height p →
  0 < width (exif_transpose p) ∧ 0 < height (exif_transpose p).
Proof. unfold exif_transpose. by destruct (_ && _). Qed.

(** The size computed by lines 154-166, for a picture with a height:
    unchanged when a side is below [min_dimension]; otherwise the side
    the float test picks is exactly [min_dimension] and the other is the
    larger of [min_dimension] and the truncated product (or quotient) of
    [min_dimension] and the float aspect ratio. The computation raises
    only in [int()]. *)
Lemma thumbnail_size_cases (w h : Z) :
  0 < h →
  match thumbnail_size w h with
  | inr (new_width, new_height) =>
      (w < 400 ∨ h < 400 → new_width = w ∧ new_height = h)
      ∧ (400 ≤ w → 400 ≤ h →
           Z.min new_width new_height = 400
           ∧ let ratio :=
               (PrimFloat.of_uint63 (Uint63.of_Z w)
                / PrimFloat.of_uint63 (Uint63.of_Z h))%float in
             if (1 <? ratio)%float
             then new_height = 400
                  ∧ ∃ k, int_of_float (400 * ratio)%float = inr k
                      ∧ new_width = Z.max 400 k
             else new_width = 400
                  ∧ ∃ k, int_of_float (400 / ratio)%float = inr k
                      ∧ new_height = Z.max 400 k)
  | inl e =>
      400 ≤ w ∧ 400 ≤ h ∧ (e = OverflowError ∨ ∃ msg, e = ValueError msg)
  end.
Proof.
  intros Hpos.
  unfold thumbnail_size, aspect_ratio_of, float_of_Z, min_dimension.
  change (PrimFloat.of_uint63 (Uint63.of_Z 400)) with 400%float.
  destruct (h =? 0) eqn:Hh; [lia |].
  destruct (400 <=? w) eqn:Hw; destruct (400 <=? h) eqn:Hh'; simpl;
    try (split; [done | lia]).
  destruct (1 <? _)%float.
  - destruct (int_of_float _) as [e | k] eqn:Hk.
    + apply int_of_float_error in Hk. split; [lia |]. split; [lia | done].
    + split; [lia |]. intros _ _. split; [lia |]. split; [done |].
      by exists k.
  - destruct (int_of_float _) as [e | k] eqn:Hk.
    + apply int_of_float_error in Hk. split; [lia |]. split; [lia | done].
    + split; [lia |]. intros _ _. split; [lia |]. split; [done |].
      by exists k.
Qed.

(** C8 (amended). On a save of a Mesh whose thumbnail file is a readable
    picture and whose row is persisted, the picture (after the EXIF
    transposition) is re-encoded at the size lines 154-166 compute: when
    both sides are at least 400 pixels the shorter side becomes exactly
    400 (the height when the float aspect ratio width/height exceeds 1,
    the width otherwise) and the other side becomes
    [max(400, int(400 * ratio))], respectively
    [max(400, int(400 / ratio))]; when either side is below 400 pixels
    the size is left as it was. The picture is written when Pillow can
    write its colour mode under the name of the file; when it cannot, the
    save raises [OSError] and leaves the file unreadable, and for a name
    with an unknown extension it raises [ValueError] and leaves the file
    as it was. When [int()] raises, the save raises and the file is left
    as it was. *)
Theorem Mesh_save_thumbnail (registry : Registry) (now now' : datetime)
    (self : Mesh.t) (w : World) (pic : Picture) :
  Mesh.thumbnail self ≠ "" →
  media w !! Mesh.thumbnail self = Some (Readable pic) →
  0 < width pic → 0 < height pic →
  raised (Model_save_Mesh now
            (Mesh.with_verbose_id (derive_verbose_id self) self) w) = None →
  let image := exif_transpose pic in
  let out := Mesh_save registry now now' self w in
  match thumbnail_size (width image) (height image) with
  | inr (new_width, new_height) =>
      (width image < 400 ∨ height image < 400 →
         new_width = width image ∧ new_height = height image)
      ∧ (400 ≤ width image → 400 ≤ height image →
           Z.min new_width new_height = 400
           ∧ let ratio :=
               (PrimFloat.of_uint63 (Uint63.of_Z (width image))
                / PrimFloat.of_uint63 (Uint63.of_Z (height image)))%float in
             if (1 <? ratio)%float
             then new_height = 400
                  ∧ ∃ k, int_of_float (400 * ratio)%float = inr k
                      ∧ new_width = Z.max 400 k
             else new_width = 400
                  ∧ ∃ k, int_of_float (400 / ratio)%float = inr k
                      ∧ new_height = Z.max 400 k)
      ∧ match registry (Mesh.thumbnail self) (mode pic) with
        | Encodes =>
            raised out = None
            ∧ media (world_after out) !! Mesh.thumbnail self
              = Some (Readable {| width := new_width; height := new_height;
                                  orientation := 1; mode := mode pic |})
        | CannotWriteMode =>
            (∃ msg, raised out = Some (OSError msg))
            ∧ media (world_after out) !! Mesh.thumbnail self = Some Unreadable
        | UnknownExtension =>
            (∃ msg, raised out = Some (ValueError msg))
            ∧ media (world_after out) = media w
        end
  | inl e =>
      raised out = Some e
      ∧ media (world_after out) = media w
      ∧ 400 ≤ width image ∧ 400 ≤ height image
      ∧ (e = OverflowError ∨ ∃ msg, e = ValueError msg)
  end.
Proof.
  intros Hthumb Hfile Hwidth Hheight Hok. cbv zeta.
  destruct (exif_transpose_positive pic Hwidth Hheight) as [_ Hh].
  pose proof (thumbnail_size_cases (width (exif_transpose pic))
                (height (exif_transpose pic)) Hh) as Hsize.
  unfold Mesh_save.
  set (self1 := Mesh.with_verbose_id (derive_verbose_id self) self) in *.
  destruct (Model_save_Mesh_ok now self1 w Hok) as (Hw & _).
  destruct (Model_save_Mesh_fields now self1 w) as (_ & _ & Ht).
  pose proof (Model_save_Mesh_again now now' self1 w) as Hagain.
  set (saved := Model_save_Mesh now self1 w) in *.
  rewrite Hok. rewrite Ht. simpl.
  apply truthy_nonempty in Hthumb. rewrite Hthumb.
  assert (Hmedia : media (world_after saved) = media w) by by rewrite Hw.
  unfold PILImage_open. rewrite Hmedia, Hfile.
  replace ((0 <? width pic) && (0 <? height pic)) with true
    by (symmetry; apply andb_true_intro; split; lia).
  destruct (thumbnail_size _ _) as [e | [new_width new_height]].
  - cbn [raised raises world_after]. destruct Hsize as (? & ? & ?). done.
  - destruct Hsize as (Hkeep & Hnorm).
    split; [exact Hkeep |]. split; [exact Hnorm |].
    unfold Picture_save, resize. cbn [mode fst snd].
    rewrite exif_transpose_mode, exif_transpose_orientation.
    destruct (registry (Mesh.thumbnail self) (mode pic)).
    + match goal with
      | |- context [set_media ?m (world_after saved)] =>
          specialize (Hagain m Hok)
      end.
      cbv zeta in Hagain. split; [exact Hagain |].
      destruct (Model_save_Mesh_ok _ _ _ Hagain) as (Hw2 & _).
      rewrite Hw2. cbn [media set_meshes set_media].
      apply lookup_insert_eq.
    + cbn [raised raises world_after]. split; [eauto | exact Hmedia].
    + rewrite Hmedia, Hfile. cbn [raised raises world_after media set_media].
      split; [eauto | apply lookup_insert_eq].
Qed.

Lemma Mesh_save_thumbnail_witness :
  raised (Mesh_save pillow_registry Scenario.t0 Scenario.t1 Scenario.lingaraj
            (Scenario.with_thumbnail Scenario.photo)) = None
  ∧ media (world_after (Mesh_save pillow_registry Scenario.t0 Scenario.t1
                          Scenario.lingaraj
                          (Scenario.with_thumbnail Scenario.photo)))
      !! Scenario.thumb_path
    = Some (Readable {| width := 666; height := 400; orientation := 1;
                        mode := "RGB" |}).
Proof.
  pose proof (Mesh_save_thumbnail pillow_registry Scenario.t0 Scenario.t1
                Scenario.lingaraj
                (Scenario.with_thumbnail Scenario.photo) Scenario.photo
                ltac:(discriminate) ltac:(vm_compute; reflexivity)
                ltac:(reflexivity) ltac:(reflexivity)
                ltac:(vm_compute; reflexivity)) as H.
  cbv zeta in H.
  change (thumbnail_size (width (exif_transpose Scenario.photo))
            (height (exif_transpose Scenario.photo)))
    with (@inr PyExc (Z * Z) (666, 400)) in H.
  change (pillow_registry (Mesh.thumbnail Scenario.lingaraj)
            (mode Scenario.photo)) with Encodes in H.
  destruct H as (_ & _ & H1 & H2). split; [exact H1 | exact H2].
Defined.

(** C8, as stated, fails on a picture with one side below 400 pixels and
    the other above: a thumbnail of 1000 by 300 pixels is left at that
    size, its shorter side is not brought to 400. *)
Lemma Mesh_save_keeps_strip :
  let out :=
    Mesh_save pillow_registry Scenario.t0 Scenario.t1 Scenario.lingaraj
      (Scenario.with_thumbnail Scenario.strip) in
  raised out = None
  ∧ media (world_after out) !! Scenario.thumb_path
    = Some (Readable {| width := 1000; height := 300; orientation := 1;
                        mode := "RGB" |})
  ∧ Z.min 1000 300 ≠ 400
  ∧ ¬ (1000 < 400 ∧ 300 < 400).
Proof.
  cbv zeta. split; [by vm_compute |]. split; [by vm_compute |].
  split; lia.
Qed.

(** A thumbnail in a colour mode PNG cannot hold: the save raises and the
    stored file is left unreadable. *)
Example Mesh_save_cmyk_thumbnail :
  let out :=
    Mesh_save pillow_registry Scenario.t0 Scenario.t1 Scenario.lingaraj
      (Scenario.with_thumbnail Scenario.cmyk_photo) in
  (exc_class <$> raised out) = Some "OSError"
  ∧ media (world_after out) !! Scenario.thumb_path = Some Unreadable.
Proof. by vm_compute. Qed.

(** The sizes of a landscape, a portrait and a square picture, and of
    pictures with a side below 400. *)
Example thumbnail_size_samples :
  thumbnail_size 1000 800 = inr (500, 400)
  ∧ thumbnail_size 1000 600 = inr (666, 400)
  ∧ thumbnail_size 800 1000 = inr (400, 500)
  ∧ thumbnail_size 600 600 = inr (400, 400)
  ∧ thumbnail_size 4000 3000 = inr (533, 400)
  ∧ thumbnail_size 399 399 = inr (399, 399)
  ∧ thumbnail_size 300 1000 = inr (300, 1000)
  ∧ thumbnail_size 640 0 = inl ZeroDivisionError.
Proof. by vm_compute. Qed.

(** ** [Run.save] *)

(** What the first persistence of [Run.save] leaves when it succeeds. *)
Lemma Model_save_Run_ok now self w :
  raised (Model_save_Run false now self w) = None →
  ∃ started,
    self_after (Model_save_Run false now self w)
      = Run.with_state (Some started) false self
    ∧ world_after (Model_save_Run false now self w)
      = set_runs (<[Run.ID self := Run.with_state (Some started) false self]>
                    (runs w)) w
    ∧ has_row (meshes w) (Run.mesh self) = true
    ∧ (Run.adding self = true → started = now)
    ∧ (Run.adding self = false → has_row (runs w) (Run.ID self) = true →
       Run.started_at self = Some started).
Proof.
  unfold Model_save_Run, Run_constraint_error, Run_fk_ok, choose_write.
  destruct (Run_integers_bind self); simpl;
    [| destruct (Run.adding self), (has_row (runs w) _); discriminate].
  destruct (Run.adding self) eqn:Hadd; simpl.
  - destruct (has_row (runs w) _); simpl; [discriminate |].
    destruct (has_row (meshes w) _); simpl; [| discriminate].
    destruct (match Run.ark self with Some _ => _ | None => _ end); simpl;
      [| discriminate].
    destruct (ark_taken w self); simpl; [discriminate |].
    intros _. exists now. repeat split; done.
  - destruct (has_row (runs w) _) eqn:Hrow; simpl.
    + destruct (Run.started_at self) as [started |] eqn:Hs; simpl;
        [| discriminate].
      destruct (has_row (meshes w) _); simpl; [| discriminate].
      destruct (match Run.ark self with Some _ => _ | None => _ end); simpl;
        [| discriminate].
      destruct (ark_taken w self); simpl; [discriminate |].
      intros _. exists started. repeat split; done.
    + destruct (has_row (meshes w) _); simpl; [| discriminate].
      destruct (match Run.ark self with Some _ => _ | None => _ end); simpl;
        [| discriminate].
      destruct (ark_taken w self); simpl; [discriminate |].
      intros _. exists now. repeat split; done.
Qed.

(** The restricted second persistence of a row that is in the table
    succeeds and rewrites its [directory] column. *)
Lemma Model_save_Run_directory_ok now self w old :
  Run.adding self = false →
  runs w !! Run.ID self = Some old →
  Model_save_Run true now self w
  = returns (Run.with_state (Run.started_at self) false self)
      (set_runs (<[Run.ID self := Run.with_directory (Run.directory self) old]>
                   (runs w)) w).
Proof.
  intros Hadd Hold. unfold Model_save_Run, choose_write, has_row.
  rewrite Hadd, Hold. simpl. reflexivity.
Qed.

(** [Run.save] in full: it fails exactly when its first persistence
    fails; otherwise it returns, with the directory it was given when
    that was not empty and the derived one when it was. *)
Lemma Run_save_spec now self w :
  match raised (Model_save_Run false now self w) with
  | Some e => Run_save now self w = Model_save_Run false now self w
  | None =>
      ∃ started,
        let saved :=
          Run.with_directory
            (if PyStr.truthy (Run.directory self) then Run.directory self
             else derive_directory (Run.mesh self) started (Run.ID self))
            (Run.with_state (Some started) false self) in
        Run_save now self w
        = returns saved (set_runs (<[Run.ID self := saved]> (runs w)) w)
        ∧ (Run.adding self = true → started = now)
        ∧ (Run.adding self = false → has_row (runs w) (Run.ID self) = true →
           Run.started_at self = Some started)
  end.
Proof.
  pose proof (Model_save_Run_ok now self w) as Hok. unfold Run_save.
  destruct (raised (Model_save_Run false now self w)) eqn:Hr; [done |].
  destruct (Hok eq_refl) as (started & Hself & Hw & Hmesh & Hnew & Hold).
  exists started. cbv zeta. split; [| done].
  rewrite Hself, Hw. simpl.
  destruct (PyStr.truthy (Run.directory self)) eqn:Hd; simpl.
  - erewrite Model_save_Run_directory_ok;
      [| done | simpl; apply lookup_insert_eq].
    simpl. unfold returns. f_equal. unfold set_runs. simpl.
    by rewrite insert_insert_eq.
  - unfold related_pk. simpl. rewrite Hmesh.
    erewrite Model_save_Run_directory_ok;
      [| done | simpl; apply lookup_insert_eq].
    simpl. unfold returns. f_equal. unfold set_runs. simpl.
    by rewrite insert_insert_eq.
Qed.

Lemma derive_directory_nonempty mesh_ID started ID :
  derive_directory mesh_ID started ID ≠ "".
Proof.
  unfold derive_directory. apply str_app_nonempty_r. discriminate.
Qed.

Lemma Model_save_Run_directory_kept only now self w :
  Run.directory (self_after (Model_save_Run only now self w))
  = Run.directory self.
Proof.
  unfold Model_save_Run.
  destruct (choose_write _ _ _); simpl.
  - destruct (only && _)%bool; simpl; [done |].
    destruct (Run_integers_bind self); simpl; [| done].
    destruct (has_row _ _); simpl; [done |].
    by destruct (Run_constraint_error w self).
  - destruct only.
    + by destruct (runs w !! Run.ID self).
    + destruct (Run_integers_bind self); simpl; [| done].
      destruct (Run.started_at self); simpl; [| done].
      by destruct (Run_constraint_error w self).
Qed.

Lemma Run_save_raised now self w :
  raised (Run_save now self w) = raised (Model_save_Run false now self w).
Proof.
  pose proof (Run_save_spec now self w) as H.
  destruct (raised (Model_save_Run false now self w)) eqn:Hr.
  - by rewrite H.
  - destruct H as (started & -> & _). done.
Qed.

(** C3. A successful save leaves the Run with a directory that is not
    empty: the one it had, or, when it had none, the one derived from the
    identifier and the start timestamp the first persistence fixed, and
    the row is stored with it. From then on no save of the Run changes
    it: any later save of an instance of the Run holding that directory,
    at any time and in any state of the database, successful or not,
    leaves the directory as it is, in memory and in the stored row. *)
Theorem Run_directory_assigned_once (now : datetime) (self : Run.t) (w : World) :
  raised (Run_save now self w) = None →
  let saved := self_after (Run_save now self w) in
  Run.directory saved ≠ ""
  ∧ runs (world_after (Run_save now self w)) !! Run.ID self = Some saved
  ∧ (Run.directory self = "" →
       ∃ started, Run.started_at saved = Some started
         ∧ Run.directory saved
           = derive_directory (Run.mesh self) started (Run.ID self))
  ∧ (Run.directory self ≠ "" → Run.directory saved = Run.directory self)
  ∧ (∀ now' self' w',
       Run.directory self' = Run.directory saved →
       let again := Run_save now' self' w' in
       Run.directory (self_after again) = Run.directory saved
       ∧ (raised again = None →
            ∃ row, runs (world_after again) !! Run.ID self' = Some row
              ∧ Run.directory row = Run.directory saved)).
Proof.
  intros Hok. cbv zeta.
  assert (Hkeep : ∀ now' self' w',
            Run.directory self' ≠ "" →
            Run.directory (self_after (Run_save now' self' w'))
            = Run.directory self'
            ∧ (raised (Run_save now' self' w') = None →
                 ∃ row, runs (world_after (Run_save now' self' w'))
                          !! Run.ID self' = Some row
                   ∧ Run.directory row = Run.directory self')).
  { intros now' self' w' Hd. apply truthy_nonempty in Hd.
    pose proof (Run_save_spec now' self' w') as H.
    destruct (raised (Model_save_Run false now' self' w')) eqn:Hr.
    - rewrite H. split; [apply Model_save_Run_directory_kept | congruence].
    - destruct H as (started & -> & _). rewrite Hd. simpl.
      split; [done |]. intros _. eexists.
      split; [apply lookup_insert_eq | done]. }
  pose proof (Run_save_spec now self w) as H.
  rewrite <- Run_save_raised, Hok in H.
  destruct H as (started & Hrun & _). rewrite Hrun. simpl.
  assert (Hne : (if PyStr.truthy (Run.directory self) then Run.directory self
                 else derive_directory (Run.mesh self) started (Run.ID self))
                ≠ "").
  { destruct (PyStr.truthy (Run.directory self)) eqn:Hd.
    - by apply truthy_nonempty.
    - apply derive_directory_nonempty. }
  split; [exact Hne |]. split; [apply lookup_insert_eq |].
  split; [| split].
  - intros ->. simpl. eauto.
  - intros Hd%truthy_nonempty. by rewrite Hd.
  - intros now' self' w' Hsame.
    destruct (Hkeep now' self' w') as (Hmem & Hrow).
    + by rewrite Hsame.
    + rewrite <- Hsame. split; [exact Hmem | exact Hrow].
Qed.

Lemma Run_directory_assigned_once_witness :
  let first := Run_save Scenario.t0 Scenario.run Scenario.w_mesh in
  let again :=
    Run_save Scenario.t1 (Run.with_status "Error" (self_after first))
      (world_after first) in
  Run.directory (self_after first) ≠ ""
  ∧ Run.directory (self_after again) = Run.directory (self_after first).
Proof.
  cbv zeta.
  destruct (Run_directory_assigned_once Scenario.t0 Scenario.run
              Scenario.w_mesh ltac:(vm_compute; reflexivity))
    as (Hne & _ & _ & _ & Hlater).
  split; [exact Hne |].
  apply (Hlater Scenario.t1
           (Run.with_status "Error"
              (self_after (Run_save Scenario.t0 Scenario.run Scenario.w_mesh)))
           (world_after (Run_save Scenario.t0 Scenario.run Scenario.w_mesh))
           eq_refl).
Defined.

(** C4. When a save derives the directory (the Run had none and the save
    succeeds), the Run's Mesh exists and the directory is
    [{MeshID}/cache/{YYYY-MM-DD-HH-MM-SS}__{RunID}], the fields of the
    start timestamp zero-padded and joined by hyphens; the start
    timestamp is the clock reading of the save for a new Run. *)
Theorem Run_directory_format (now : datetime) (self : Run.t) (w : World) :
  raised (Run_save now self w) = None →
  Run.directory self = "" →
  ∃ started,
    Run.started_at (self_after (Run_save now self w)) = Some started
    ∧ (Run.adding self = true → started = now)
    ∧ has_row (meshes w) (Run.mesh self) = true
    ∧ Run.directory (self_after (Run_save now self w))
      = Run.mesh self +:+ "/cache/"
        +:+ dec4 (year started) +:+ "-" +:+ dec2 (month started)
        +:+ "-" +:+ dec2 (day started) +:+ "-" +:+ dec2 (hour started)
        +:+ "-" +:+ dec2 (minute started) +:+ "-" +:+ dec2 (second started)
        +:+ "__" +:+ Run.ID self.
Proof.
  intros Hok Hd.
  rewrite Run_save_raised in Hok.
  destruct (Model_save_Run_ok now self w Hok) as (_ & _ & _ & Hmesh & _).
  pose proof (Run_save_spec now self w) as H. rewrite Hok in H.
  destruct H as (started & Hrun & Hnew & _). exists started.
  rewrite Hrun, Hd. simpl.
  split; [done |]. split; [exact Hnew |]. split; [exact Hmesh |].
  unfold derive_directory, strftime_Ymd_HMS. by rewrite !str_app_assoc.
Qed.

Lemma Run_directory_format_witness :
  Run.directory (self_after (Run_save Scenario.t0 Scenario.run Scenario.w_mesh))
  = "M0000000000000001/cache/2024-03-02-10-15-00__R0000000000000001".
Proof.
  destruct (Run_directory_format Scenario.t0 Scenario.run Scenario.w_mesh
              ltac:(vm_compute; reflexivity) eq_refl)
    as (started & _ & Hnew & _ & Hdir).
  rewrite Hdir, (Hnew eq_refl). reflexivity.
Defined.

(** ** The status of a Run *)

Lemma Model_save_Run_status now self w status :
  raised (Model_save_Run false now (Run.with_status status self) w)
  = raised (Model_save_Run false now self w).
Proof.
  unfold Model_save_Run, Run_constraint_error, Run_fk_ok, ark_taken,
    Run_integers_bind. simpl.
  destruct (binds_as_integer _ && _ && _); simpl;
    [| by destruct (choose_write _ _ _)].
  destruct (choose_write _ _ _); simpl.
  - destruct (has_row (runs w) _); simpl; [done |].
    destruct (negb _); simpl; [done |].
    by destruct (match Run.ark self with Some _ => _ | None => _ end).
  - destruct (Run.started_at self); simpl; [| done].
    destruct (negb _); simpl; [done |].
    by destruct (match Run.ark self with Some _ => _ | None => _ end).
Qed.

(** C6 (amended). [Run.save] checks neither the status nor the ARK
    reference: giving a Run any status, Archived included, changes neither
    whether its save succeeds nor the exception it raises, and a
    successful save stores the row with that status and with the ARK
    reference the Run has, bound or not. *)
Theorem Run_save_ignores_status (now : datetime) (self : Run.t) (w : World)
    (status : string) :
  let out := Run_save now (Run.with_status status self) w in
  raised out = raised (Run_save now self w)
  ∧ (raised out = None →
       ∃ row, runs (world_after out) !! Run.ID self = Some row
         ∧ Run.status row = status
         ∧ Run.ark row = Run.ark self).
Proof.
  cbv zeta. rewrite !Run_save_raised, Model_save_Run_status.
  split; [done |]. intros Hok.
  pose proof (Run_save_spec now (Run.with_status status self) w) as H.
  rewrite Model_save_Run_status, Hok in H.
  destruct H as (started & -> & _). simpl.
  eexists. split; [apply lookup_insert_eq | done].
Qed.

(** C6, as stated, fails: a Run with no ARK whose status is set to
    Archived is saved, and the stored row is Archived with no ARK. *)
Lemma Run_archived_without_ARK :
  let out :=
    Run_save Scenario.t0 (Run.with_status "Archived" Scenario.run)
      Scenario.w_mesh in
  raised out = None
  ∧ Run.status <$> runs (world_after out) !! "R0000000000000001"
    = Some "Archived"
  ∧ Run.ark <$> runs (world_after out) !! "R0000000000000001" = Some None.
Proof. by vm_compute. Qed.

(** ** Deletion *)

Lemma cascades_from_rank w target o :
  cascades_from w target o = true →
  (rank (model_of target) < rank (model_of o))%nat.
Proof.
  unfold cascades_from. intros H.
  destruct o; simpl in H; try discriminate H;
    repeat match type of H with
           | context [match ?t !! ?k with _ => _ end] =>
               destruct (t !! k) as [?row |]; simpl in H
           end;
    try discriminate H;
    destruct target; simpl; try lia; exfalso;
    repeat match type of H with
           | (_ || _)%bool = true => apply orb_prop in H as [H | H]
           end;
    try discriminate H;
    apply bool_decide_eq_true in H; try discriminate H.
  all: destruct (Run.ark row); discriminate H.
Qed.

Lemma cascade_referrers_rank w objs (k : nat) :
  Forall (λ o, (k ≤ rank (model_of o))%nat) objs →
  Forall (λ o, (S k ≤ rank (model_of o))%nat) (objs ≫= cascade_referrers w).
Proof.
  intros Hall. apply Forall_forall. intros o (t & Ho & Ht)%list_elem_of_bind.
  apply list_elem_of_In, filter_In in Ho as [_ Ho].
  apply cascades_from_rank in Ho.
  rewrite Forall_forall in Hall. specialize (Hall t Ht). lia.
Qed.

Lemma rank_bound m : (rank m ≤ 3)%nat.
Proof. destruct m; simpl; lia. Qed.

Lemma collect_nil n w : collect n w [] = [].
Proof. induction n as [|n IH]; [done |]. simpl. exact IH. Qed.

(** The depth of the collector is enough: more levels find nothing more. *)
Lemma collect_depth_enough w (extra n k : nat) objs :
  Forall (λ o, (k ≤ rank (model_of o))%nat) objs →
  (4 ≤ k + n)%nat →
  collect (n + extra) w objs = collect n w objs.
Proof.
  revert k objs. induction n as [|n IH]; intros k objs Hall Hk.
  - destruct objs as [|o objs]; [by rewrite !collect_nil |].
    apply Forall_cons in Hall as [Ho _].
    pose proof (rank_bound (model_of o)). lia.
  - simpl. f_equal. apply (IH (S k)); [| lia].
    by apply cascade_referrers_rank.
Qed.

Lemma cascades_from_not_ARK w target o :
  cascades_from w target o = true → model_of o ≠ M_ARK.
Proof.
  intros H%cascades_from_rank Ho. rewrite Ho in H. simpl in H. lia.
Qed.

Lemma collect_no_ARK n w objs :
  Forall (λ o, model_of o ≠ M_ARK) objs →
  Forall (λ o, model_of o ≠ M_ARK) (collect n w objs).
Proof.
  revert objs. induction n as [|n IH]; intros objs Hall; [done |].
  simpl. apply Forall_app. split; [done |]. apply IH.
  apply Forall_forall. intros o (t & Ho & _)%list_elem_of_bind.
  apply list_elem_of_In, filter_In in Ho as [_ Ho].
  by apply cascades_from_not_ARK in Ho.
Qed.

Lemma delete_rows_keep_arks w objs :
  Forall (λ o, model_of o ≠ M_ARK) objs →
  arks (foldr delete_row w objs) = arks w.
Proof.
  induction 1 as [|o objs Ho _ IH]; [done |].
  simpl. rewrite <- IH. by destruct o.
Qed.

(** C2. The relationship from Run to ARK is declared with the
    non-cascading rule [DO_NOTHING], and deleting a Run removes the Run
    and leaves the table of ARKs as it was: the ARK bound to the Run is
    still stored, under the same key and with the same [ark:/...] name. *)
Theorem Run_delete_keeps_ARK (w : World) (ID : string) :
  on_delete_rule M_Run "ark" = Some DO_NOTHING
  ∧ runs (Model_delete (O_Run ID) w) !! ID = None
  ∧ arks (Model_delete (O_Run ID) w) = arks w
  ∧ (∀ run a row,
       runs w !! ID = Some run → Run.ark run = Some a →
       arks w !! a = Some row →
       arks (Model_delete (O_Run ID) w) !! a = Some row
       ∧ ARK.str row = "ark:/" +:+ ARK.ark row).
Proof.
  assert (Harks : arks (Model_delete (O_Run ID) w) = arks w).
  { unfold Model_delete. apply delete_rows_keep_arks, collect_no_ARK.
    by apply Forall_singleton. }
  split; [reflexivity |]. split; [| split; [exact Harks |]].
  - unfold Model_delete, collector_depth.
    change (collect 4 w [O_Run ID])
      with (O_Run ID :: collect 3 w ([O_Run ID] ≫= cascade_referrers w)).
    set (rest := collect 3 w _).
    change (foldr delete_row w (O_Run ID :: rest))
      with (delete_row (O_Run ID) (foldr delete_row w rest)).
    unfold delete_row at 1. cbn [runs set_runs]. apply lookup_delete_eq.
  - intros run a row _ _ Hrow. by rewrite Harks.
Qed.

(** ** Contribution intake *)

(** C7. An intake against a completed Mesh or by a banned Contributor
    fails with IntakeRejected, the reason naming a precondition that is
    violated, and leaves the world as it was: no Contribution record is
    created. *)
Theorem intake_rejected (now : datetime) (new_ID : UUID) (mesh : Mesh.t)
    (contributor : Contributor.t) (uploads : list Upload) (w : World) :
  Mesh.completed mesh = true ∨ Contributor.banned contributor = true →
  ∃ reason,
    intake now new_ID mesh contributor uploads w
      = (inl (IntakeRejected reason), w)
    ∧ contributions (intake now new_ID mesh contributor uploads w).2
      = contributions w
    ∧ (reason = MeshClosed → Mesh.completed mesh = true)
    ∧ (reason = ContributorBanned → Contributor.banned contributor = true).
Proof.
  intros Hpre. unfold intake.
  destruct (Mesh.completed mesh) eqn:Hc.
  - exists MeshClosed. repeat split; done.
  - destruct Hpre as [Hpre | Hb]; [discriminate |]. rewrite Hb.
    exists ContributorBanned. repeat split; done.
Qed.

Lemma intake_rejected_witness :
  ∃ reason,
    intake Scenario.t1 12%N Scenario.lingaraj Scenario.banned_contributor []
      Scenario.w_mesh
      = (inl (IntakeRejected reason), Scenario.w_mesh)
    ∧ contributions
        (intake Scenario.t1 12%N Scenario.lingaraj Scenario.banned_contributor
           [] Scenario.w_mesh).2
      = contributions Scenario.w_mesh
    ∧ (reason = MeshClosed → Mesh.completed Scenario.lingaraj = true)
    ∧ (reason = ContributorBanned →
       Contributor.banned Scenario.banned_contributor = true).
Proof.
  apply (intake_rejected Scenario.t1 12%N Scenario.lingaraj
           Scenario.banned_contributor [] Scenario.w_mesh).
  right. reflexivity.
Defined.

(** * Further properties of the code *)

(** ** Upload paths *)

Lemma str_app_inj_l (s a b : string) : s +:+ a = s +:+ b → a = b.
Proof.
  induction s as [|x s IH]; [done |]. rewrite !str_app_cons.
  intros [= H]. by apply IH.
Qed.

(** X1. The preview and the thumbnail of a Mesh never get the same path,
    whatever the identifier and the uploaded names. *)
Theorem preview_thumbnail_paths_differ (obj : Mesh.t) (f f' : string) :
  set_preview obj f ≠ set_thumbnail obj f'.
Proof.
  unfold set_preview, set_thumbnail, os_path_join.
  assert (Hs : PyStr.startswith "/" (Mesh.ID obj +:+ "_thumb.png")
               = PyStr.startswith "/" (Mesh.ID obj +:+ "_prev.png"))
    by by destruct (Mesh.ID obj).
  rewrite Hs.
  destruct (PyStr.startswith "/" (Mesh.ID obj +:+ "_prev.png")).
  - intros H%str_app_inj_l. discriminate.
  - destruct (negb _ || _)%bool.
    + intros H%str_app_inj_l%str_app_inj_l. discriminate.
    + intros H%str_app_inj_l%str_app_inj_l%str_app_inj_l. discriminate.
Qed.

Lemma split_no_separator c s :
  PyStr.contains c s = false → PyStr.split c s = [s].
Proof.
  induction s as [|x s IH]; [done |]. simpl.
  intros [Hx Hs]%orb_false_iff. rewrite Hx, (IH Hs). done.
Qed.

Lemma split_after_separator c s t :
  ∃ hd tl, PyStr.split c (s +:+ String c t) = hd :: tl ∧ tl ≠ []
    ∧ List.last (hd :: tl) "" = List.last (PyStr.split c t) "".
Proof.
  induction s as [|x s (hd & tl & Hsplit & Htl & Hlast)].
  - rewrite str_app_nil_l, split_cons, Ascii.eqb_refl.
    exists "", (PyStr.split c t).
    split; [done |]. split; [apply split_nonempty |].
    apply last_cons_ne, split_nonempty.
  - rewrite str_app_cons, split_cons, Hsplit.
    destruct (Ascii.eqb x c).
    + exists "", (hd :: tl). split; [done |]. split; [done |].
      by rewrite last_cons_ne.
    + exists (String x hd), tl. split; [done |]. split; [done |].
      rewrite last_cons_ne by done. by rewrite last_cons_ne in Hlast.
Qed.

(** The token [split('.')[-1]] picks is what follows the last dot. *)
Lemma last_token_after_dot c before token :
  PyStr.contains c token = false →
  PyStr.last_token (PyStr.split c (before +:+ String c token)) = token.
Proof.
  intros Hc. unfold PyStr.last_token.
  destruct (split_after_separator c before token) as (hd & tl & -> & _ & ->).
  by rewrite split_no_separator.
Qed.

(** X2. The extension [set_image] gives a stored image: for an uploaded name
    with a dot, the lower-cased text after the last dot (empty when the
    name ends with a dot); for a name with no dot, the whole name in
    lower case. *)
Theorem set_image_extension (w : World) (obj : Image.t) (c : Contribution.t)
    (before token : string) :
  contributions w !! Image.contribution obj = Some c →
  has_row (meshes w) (Contribution.mesh c) = true →
  PyStr.contains "." token = false →
  let stem :=
    "models/" +:+ Contribution.mesh c +:+ "/images/"
    +:+ str_UUID (Image.ID obj) +:+ "." in
  set_image w obj (before +:+ "." +:+ token)
    = inr (stem +:+ PyStr.lower token)
  ∧ set_image w obj token = inr (stem +:+ PyStr.lower token)
  ∧ set_image w obj (before +:+ ".") = inr stem.
Proof.
  intros Hc Hm Hdot. cbv zeta.
  assert (Hany : ∀ filename tok,
            PyStr.last_token (PyStr.split "." filename) = tok →
            set_image w obj filename
            = inr ("models/" +:+ Contribution.mesh c +:+ "/images/"
                   +:+ str_UUID (Image.ID obj) +:+ "." +:+ PyStr.lower tok)).
  { intros filename tok Htok.
    unfold set_image, related_pk. rewrite Hc, Hm, Htok. f_equal.
    rewrite os_path_join_relative.
    - rewrite !str_app_assoc. reflexivity.
    - discriminate.
    - rewrite endswith_app by (apply str_app_nonempty_r; discriminate).
      rewrite endswith_app by discriminate. reflexivity.
    - rewrite startswith_app by apply str_UUID_nonempty.
      apply str_UUID_startswith. }
  split; [| split].
  - rewrite (Hany _ token); [by rewrite ?str_app_assoc |].
    by apply last_token_after_dot.
  - rewrite (Hany _ token); [by rewrite ?str_app_assoc |].
    unfold PyStr.last_token. by rewrite split_no_separator.
  - rewrite (Hany _ ""); [rewrite ?str_app_assoc; reflexivity |].
    by apply (last_token_after_dot "." before "").
Qed.

Lemma set_image_extension_witness :
  set_image Scenario.w_contribution Scenario.image ("IMG_0042.tar" +:+ "." +:+ "JPG")
    = inr ("models/M0000000000000001/images/12345678-abcd-ef01-2345-6789abcdef01."
           +:+ "jpg")
  ∧ set_image Scenario.w_contribution Scenario.image "JPG"
    = inr ("models/M0000000000000001/images/12345678-abcd-ef01-2345-6789abcdef01."
           +:+ "jpg")
  ∧ set_image Scenario.w_contribution Scenario.image ("IMG_0042.tar" +:+ ".")
    = inr "models/M0000000000000001/images/12345678-abcd-ef01-2345-6789abcdef01.".
Proof.
  exact (set_image_extension Scenario.w_contribution Scenario.image
           Scenario.contribution "IMG_0042.tar" "JPG"
           ltac:(vm_compute; reflexivity) ltac:(vm_compute; reflexivity)
           eq_refl).
Defined.

(** ** [Mesh.save]: a failure after the row is written *)

(** X5. A save is not atomic: when the thumbnail file is missing the save
    raises [FileNotFoundError], but the row has been written already,
    with the recomputed [verbose_id]. *)
Theorem Mesh_save_missing_thumbnail (registry : Registry)
    (now now' : datetime) (self : Mesh.t)
    (w : World) :
  Mesh.thumbnail self ≠ "" →
  media w !! Mesh.thumbnail self = None →
  raised (Model_save_Mesh now
            (Mesh.with_verbose_id (derive_verbose_id self) self) w) = None →
  let out := Mesh_save registry now now' self w in
  raised out = Some (FileNotFoundError (Mesh.thumbnail self))
  ∧ media (world_after out) = media w
  ∧ ∃ row, meshes (world_after out) !! Mesh.ID self = Some row
      ∧ Mesh.verbose_id row = derive_verbose_id self
      ∧ Mesh.adding row = false.
Proof.
  intros Hthumb Hfile Hok. cbv zeta. unfold Mesh_save.
  set (self1 := Mesh.with_verbose_id (derive_verbose_id self) self) in *.
  destruct (Model_save_Mesh_ok now self1 w Hok) as (Hw & Hadd & _).
  destruct (Model_save_Mesh_fields now self1 w) as (Hv & _ & Ht).
  set (saved := Model_save_Mesh now self1 w) in *.
  rewrite Hok, Ht. simpl.
  apply truthy_nonempty in Hthumb. rewrite Hthumb.
  unfold PILImage_open. rewrite Hw. simpl. rewrite Hfile. simpl.
  split; [done |]. split; [done |].
  exists (self_after saved). split; [apply lookup_insert_eq | done].
Qed.

Lemma Mesh_save_missing_thumbnail_witness :
  let out :=
    Mesh_save pillow_registry Scenario.t0 Scenario.t1 Scenario.lingaraj empty_world in
  raised out = Some (FileNotFoundError (Mesh.thumbnail Scenario.lingaraj))
  ∧ media (world_after out) = media empty_world
  ∧ ∃ row, meshes (world_after out) !! Mesh.ID Scenario.lingaraj = Some row
      ∧ Mesh.verbose_id row = derive_verbose_id Scenario.lingaraj
      ∧ Mesh.adding row = false.
Proof.
  exact (Mesh_save_missing_thumbnail pillow_registry Scenario.t0 Scenario.t1
           Scenario.lingaraj empty_world ltac:(discriminate) eq_refl
           ltac:(vm_compute; reflexivity)).
Defined.

(** ** The slug *)

Lemma str_length_app (s t : string) :
  String.length (s +:+ t) = (String.length s + String.length t)%nat.
Proof.
  induction s as [|x s IH]; [done |]. rewrite str_app_cons. simpl.
  by rewrite IH.
Qed.

Lemma replace_app a b (s t : string) :
  PyStr.replace a b (s +:+ t) = PyStr.replace a b s +:+ PyStr.replace a b t.
Proof.
  induction s as [|x s IH]; [done |]. rewrite str_app_cons. simpl.
  by rewrite IH.
Qed.

(** X6. The slug is six characters longer than country, state, district and
    name together, so it is not bounded by the 200 characters of the
    [verbose_id] column even when each part fits its own column. *)
Theorem verbose_id_length (self : Mesh.t) :
  String.length (derive_verbose_id self)
  = (String.length (Mesh.country self) + String.length (Mesh.state self)
     + String.length (Mesh.district self) + String.length (Mesh.name self)
     + 6)%nat.
Proof.
  unfold derive_verbose_id. rewrite replace_length, !str_length_app.
  simpl. lia.
Qed.

(** X7. The slug does not tell a space from an underscore: two Meshes whose
    country, state, district and name agree once spaces are replaced by
    underscores get the same [verbose_id]. *)
Theorem verbose_id_space_blind (m1 m2 : Mesh.t) :
  PyStr.replace " " "_" (Mesh.country m1) = PyStr.replace " " "_" (Mesh.country m2) →
  PyStr.replace " " "_" (Mesh.state m1) = PyStr.replace " " "_" (Mesh.state m2) →
  PyStr.replace " " "_" (Mesh.district m1) = PyStr.replace " " "_" (Mesh.district m2) →
  PyStr.replace " " "_" (Mesh.name m1) = PyStr.replace " " "_" (Mesh.name m2) →
  derive_verbose_id m1 = derive_verbose_id m2.
Proof.
  intros Hc Hs Hd Hn. unfold derive_verbose_id.
  rewrite !replace_app, Hc, Hs, Hd, Hn. reflexivity.
Qed.

Lemma verbose_id_space_blind_witness :
  Mesh.name Scenario.lingaraj ≠ Mesh.name Scenario.lingaraj_again
  ∧ derive_verbose_id Scenario.lingaraj
    = derive_verbose_id Scenario.lingaraj_again.
Proof.
  split; [discriminate |].
  exact (verbose_id_space_blind Scenario.lingaraj Scenario.lingaraj_again
           eq_refl eq_refl eq_refl eq_refl).
Defined.

Lemma Picture_save_meshes registry p path w e w' :
  Picture_save registry p path w = (e, w') → meshes w' = meshes w.
Proof.
  unfold Picture_save. destruct (registry path (mode p)).
  - by intros [= _ <-].
  - by intros [= _ <-].
  - destruct (media w !! path); by intros [= _ <-].
Qed.

(** X8. The automatic timestamps after a successful save: [updated_at] is the
    clock reading of the last persistence (the second one when there is a
    thumbnail), [created_at] is the clock reading of the insert for a new
    Mesh, and the instance is no longer marked as being added. *)
Theorem Mesh_save_timestamps (registry : Registry) (now now' : datetime) (self : Mesh.t) (w : World) :
  raised (Mesh_save registry now now' self w) = None →
  let saved := self_after (Mesh_save registry now now' self w) in
  Mesh.updated_at saved
    = Some (if PyStr.truthy (Mesh.thumbnail self) then now' else now)
  ∧ (Mesh.adding self = true → Mesh.created_at saved = Some now)
  ∧ (Mesh.adding self = false → has_row (meshes w) (Mesh.ID self) = true →
     Mesh.created_at saved = Mesh.created_at self)
  ∧ Mesh.adding saved = false.
Proof.
  assert (Hone : ∀ t (s : Mesh.t) (v : World),
            raised (Model_save_Mesh t s v) = None →
            Mesh.updated_at (self_after (Model_save_Mesh t s v)) = Some t
            ∧ (Mesh.adding s = true →
               Mesh.created_at (self_after (Model_save_Mesh t s v)) = Some t)
            ∧ (Mesh.adding s = false → has_row (meshes v) (Mesh.ID s) = true →
               Mesh.created_at (self_after (Model_save_Mesh t s v))
               = Mesh.created_at s)
            ∧ Mesh.adding (self_after (Model_save_Mesh t s v)) = false).
  { intros t s v. unfold Model_save_Mesh, choose_write.
    destruct (Mesh.adding s); simpl.
    - destruct (has_row _ _); simpl; [discriminate |].
      destruct (verbose_id_taken v s); simpl; [discriminate |]. done.
    - destruct (has_row _ _); simpl.
      + destruct (Mesh.created_at s); simpl; [| discriminate].
        destruct (verbose_id_taken v s); simpl; [discriminate |]. done.
      + destruct (verbose_id_taken v s); simpl; [discriminate |]. done. }
  cbv zeta. unfold Mesh_save.
  set (self1 := Mesh.with_verbose_id (derive_verbose_id self) self).
  pose proof (Hone now self1 w) as H1.
  pose proof (Model_save_Mesh_ok now self1 w) as Hok.
  destruct (Model_save_Mesh_fields now self1 w) as (_ & Hid & Ht).
  set (saved := Model_save_Mesh now self1 w) in *.
  destruct (raised saved) eqn:Hr; [intros ?; congruence |].
  destruct (H1 eq_refl) as (Hu & Hnew & Hold & Hadd).
  destruct (Hok eq_refl) as (Hw & _).
  rewrite Ht. simpl.
  destruct (PyStr.truthy (Mesh.thumbnail self)); [| intros _; done].
  destruct (PILImage_open _ _) as [e | image]; [discriminate |].
  destruct (thumbnail_size _ _) as [e | new_size]; [discriminate |].
  destruct (Picture_save _ _ _ _) as [[e2 |] w2] eqn:Hwrite; [discriminate |].
  intros Hok2.
  match type of Hok2 with
  | raised (Model_save_Mesh now' ?s ?v) = None =>
      destruct (Hone now' s v Hok2) as (Hu2 & _ & Hold2 & Hadd2)
  end.
  split; [exact Hu2 |].
  assert (Hkeep : Mesh.created_at
                    (self_after (Model_save_Mesh now' (self_after saved) w2))
                  = Mesh.created_at (self_after saved)).
  { apply Hold2; [exact Hadd |].
    rewrite (Picture_save_meshes _ _ _ _ _ _ Hwrite), Hw. simpl.
    rewrite Hid. apply has_row_insert. }
  split; [| split; [| exact Hadd2]].
  - intros Ha. rewrite Hkeep. by apply Hnew.
  - intros Ha Hrow. rewrite Hkeep. by apply Hold.
Qed.

Lemma Mesh_save_timestamps_witness :
  let saved :=
    self_after (Mesh_save pillow_registry Scenario.t0 Scenario.t1 Scenario.lingaraj
                  (Scenario.with_thumbnail Scenario.photo)) in
  Mesh.updated_at saved = Some Scenario.t1
  ∧ Mesh.created_at saved = Some Scenario.t0
  ∧ Mesh.adding saved = false.
Proof.
  destruct (Mesh_save_timestamps pillow_registry Scenario.t0 Scenario.t1 Scenario.lingaraj
              (Scenario.with_thumbnail Scenario.photo)
              ltac:(vm_compute; reflexivity))
    as (Hu & Hnew & _ & Hadd).
  split; [exact Hu |]. split; [exact (Hnew eq_refl) | exact Hadd].
Defined.

(** ** [ARK.save]: re-saving, and the shape of the key *)

Lemma Model_save_ARK_spec now self w :
  raised (Model_save_ARK now self w) = None →
  ∃ created,
    Model_save_ARK now self w
    = returns (ARK.with_state (Some created) false self)
        (set_arks (<[ARK.ark self := ARK.with_state (Some created) false self]>
                     (arks w)) w).
Proof.
  unfold Model_save_ARK.
  destruct (choose_write _ _ _); simpl.
  - destruct (has_row _ _); simpl; [discriminate | eauto].
  - destruct (ARK.created_at self); simpl; [eauto | discriminate].
Qed.

Lemma ARK_save_spec now self w :
  raised (ARK_save now self w) = None →
  ∃ created,
    PyStr.startswith "/" (ARK.shoulder self) = true
    ∧ String.eqb (ARK.ark self)
        (ARK.naan self +:+ ARK.shoulder self +:+ ARK.assigned_name self) = true
    ∧ ARK_save now self w
      = returns (ARK.with_state (Some created) false self)
          (set_arks (<[ARK.ark self := ARK.with_state (Some created) false self]>
                       (arks w)) w).
Proof.
  unfold ARK_save.
  destruct (PyStr.startswith "/" (ARK.shoulder self)); [| discriminate].
  destruct (String.eqb (ARK.ark self) _); [| discriminate].
  cbn [negb]. intros Hok.
  destruct (Model_save_ARK_spec now self w Hok) as (created & ->). eauto.
Qed.

(** X9. Saving an ARK twice is the same as saving it once: a second save of
    the saved instance succeeds and changes neither the instance nor the
    world; in particular [created_at] stays the time of the first save. *)
Theorem ARK_save_idempotent (now now' : datetime) (self : ARK.t) (w : World) :
  raised (ARK_save now self w) = None →
  let out := ARK_save now self w in
  ARK_save now' (self_after out) (world_after out)
  = returns (self_after out) (world_after out).
Proof.
  cbv zeta. intros Hok.
  destruct (ARK_save_spec now self w Hok) as (created & Hs & He & ->).
  unfold ARK_save, returns.
  cbn [self_after world_after ARK.shoulder ARK.ark ARK.naan
       ARK.assigned_name ARK.with_state].
  rewrite Hs, He. cbn [negb].
  unfold Model_save_ARK, choose_write.
  cbn [ARK.adding ARK.ark ARK.created_at ARK.with_state arks set_arks andb].
  rewrite has_row_insert. unfold returns. f_equal.
  unfold set_arks. cbn. by rewrite insert_insert_eq.
Qed.

Lemma ARK_save_idempotent_witness :
  let out :=
    ARK_save Scenario.t0
      (Scenario.mint "99999" "/fk4" "abc123" "99999/fk4abc123") empty_world in
  ARK_save Scenario.t1 (self_after out) (world_after out)
  = returns (self_after out) (world_after out).
Proof.
  exact (ARK_save_idempotent Scenario.t0 Scenario.t1
           (Scenario.mint "99999" "/fk4" "abc123" "99999/fk4abc123")
           empty_world ltac:(vm_compute; reflexivity)).
Defined.

Lemma startswith_cons c s :
  PyStr.startswith c s = true → ∃ rest, s = String c rest.
Proof.
  destruct s as [|x s]; simpl; [discriminate |].
  intros ->%Ascii.eqb_eq. eauto.
Qed.

(** X10. Every ARK that is saved has the key [{naan}/{rest}], and its printed
    form ([__str__]) is [ark:/{naan}/{rest}]. *)
Theorem ARK_key_syntax (now : datetime) (self : ARK.t) (w : World) :
  raised (ARK_save now self w) = None →
  ∃ rest,
    ARK.ark self = ARK.naan self +:+ "/" +:+ rest
    ∧ ARK.str (self_after (ARK_save now self w))
      = "ark:/" +:+ ARK.naan self +:+ "/" +:+ rest
    ∧ String.length (ARK.ark self)
      = (String.length (ARK.naan self) + String.length (ARK.shoulder self)
         + String.length (ARK.assigned_name self))%nat.
Proof.
  unfold ARK_save.
  destruct (PyStr.startswith "/" (ARK.shoulder self)) eqn:Hs; simpl;
    [| discriminate].
  destruct (String.eqb _ _) eqn:He; simpl; [| discriminate].
  apply String.eqb_eq in He. apply startswith_cons in Hs as [rest Hs].
  intros Hok. exists (rest +:+ ARK.assigned_name self).
  assert (Hark : ARK.ark (self_after (Model_save_ARK now self w)) = ARK.ark self).
  { unfold Model_save_ARK. destruct (choose_write _ _ _); simpl.
    - by destruct (has_row _ _).
    - by destruct (ARK.created_at self). }
  unfold ARK.str. rewrite Hark, He, Hs, !str_length_app.
  split; [reflexivity |]. split; [reflexivity | lia].
Qed.

Lemma ARK_key_syntax_witness :
  ∃ rest,
    "99999/fk4abc123" = "99999" +:+ "/" +:+ rest
    ∧ ARK.str (self_after
                 (ARK_save Scenario.t0
                    (Scenario.mint "99999" "/fk4" "abc123" "99999/fk4abc123")
                    empty_world))
      = "ark:/" +:+ "99999" +:+ "/" +:+ rest
    ∧ String.length "99999/fk4abc123"
      = (String.length "99999" + String.length "/fk4"
         + String.length "abc123")%nat.
Proof.
  exact (ARK_key_syntax Scenario.t0
           (Scenario.mint "99999" "/fk4" "abc123" "99999/fk4abc123")
           empty_world ltac:(vm_compute; reflexivity)).
Defined.

(** ** [Run.save]: failure, frame, re-saving, distinct directories *)

Lemma Model_save_Run_fail now self w e :
  raised (Model_save_Run false now self w) = Some e →
  world_after (Model_save_Run false now self w) = w
  ∧ ∃ s a, self_after (Model_save_Run false now self w) = Run.with_state s a self.
Proof.
  assert (Heta : self = Run.with_state (Run.started_at self) (Run.adding self) self)
    by by destruct self.
  unfold Model_save_Run, Run_constraint_error.
  destruct (choose_write _ _ _); simpl.
  - destruct (Run_integers_bind self); simpl; [| intros _; eauto 10].
    destruct (has_row _ _); simpl; [intros _; eauto 10 |].
    destruct (negb _); simpl; [intros _; eauto 10 |].
    destruct (ark_taken w self); simpl; [intros _; eauto 10 |].
    discriminate.
  - destruct (Run_integers_bind self); simpl; [| intros _; eauto 10].
    destruct (Run.started_at self) eqn:Hs; simpl.
    + destruct (negb _); simpl; [intros _; eauto 10 |].
      destruct (ark_taken w self); simpl; [intros _; eauto 10 |].
      discriminate.
    + intros _. eauto 10.
Qed.



(** X12. A save touches, on the instance, the start timestamp, the directory
    and the adding flag, and, in the world, the row of the Run: the Mesh,
    the ARK reference, the status, the end timestamp and the rotations of
    the instance, the other Run rows, every other table and the stored
    files are as they were. *)
Theorem Run_save_frame (now : datetime) (self : Run.t) (w : World) :
  let out := Run_save now self w in
  (∃ s a d, self_after out = Run.with_directory d (Run.with_state s a self))
  ∧ meshes (world_after out) = meshes w
  ∧ contributors (world_after out) = contributors w
  ∧ contributions (world_after out) = contributions w
  ∧ images (world_after out) = images w
  ∧ arks (world_after out) = arks w
  ∧ run_contributors (world_after out) = run_contributors w
  ∧ run_images (world_after out) = run_images w
  ∧ media (world_after out) = media w
  ∧ (∀ pk, pk ≠ Run.ID self → runs (world_after out) !! pk = runs w !! pk).
Proof.
  cbv zeta. pose proof (Run_save_spec now self w) as H.
  destruct (raised (Model_save_Run false now self w)) as [e |] eqn:Hr.
  - destruct (Model_save_Run_fail now self w e Hr) as (Hw & s & a & Hs).
    rewrite H, Hw, Hs. split; [| done].
    exists s, a, (Run.directory self). reflexivity.
  - destruct H as (started & -> & _). simpl.
    split; [eauto |]. repeat split.
    intros pk Hpk. by rewrite lookup_insert_ne.
Qed.

Lemma ark_taken_insert (w w' : World) (self self' row : Run.t) :
  runs w' = <[Run.ID self := row]> (runs w) →
  Run.ID self' = Run.ID self → Run.ark self' = Run.ark self →
  ark_taken w' self' = ark_taken w self.
Proof.
  intros Hr Hid Ha. unfold ark_taken. rewrite Ha, Hr, Hid.
  destruct (Run.ark self); [| done].
  apply bool_decide_ext. unfold map_Exists.
  split; intros (pk & other & Hl & Hne & He); exists pk, other.
  - by rewrite lookup_insert_ne in Hl.
  - by rewrite lookup_insert_ne.
Qed.

(** X13. Saving a Run twice is the same as saving it once: a second save of
    the saved instance, at any later time, succeeds and changes neither
    the instance nor the world. *)
Theorem Run_save_idempotent (now now' : datetime) (self : Run.t) (w : World) :
  raised (Run_save now self w) = None →
  let out := Run_save now self w in
  Run_save now' (self_after out) (world_after out)
  = returns (self_after out) (world_after out).
Proof.
  cbv zeta. intros Hok.
  pose proof (Run_save_spec now self w) as H.
  rewrite Run_save_raised in Hok.
  pose proof (Model_save_Run_ok now self w Hok) as (_ & _ & _ & Hmesh & _).
  assert (Hcons : Run_integers_bind self = true
                  ∧ Run_constraint_error w self = None).
  { revert Hok. unfold Model_save_Run.
    destruct (choose_write _ _ _); simpl.
    - destruct (Run_integers_bind self); simpl; [| discriminate].
      destruct (has_row _ _); simpl; [discriminate |].
      by destruct (Run_constraint_error w self).
    - destruct (Run_integers_bind self); simpl; [| discriminate].
      destruct (Run.started_at self); simpl; [| discriminate].
      by destruct (Run_constraint_error w self). }
  destruct Hcons as [Hbind Hcons].
  rewrite Hok in H. destruct H as (started & Hrun & _). rewrite Hrun.
  set (d := if PyStr.truthy (Run.directory self) then Run.directory self
            else derive_directory (Run.mesh self) started (Run.ID self)) in *.
  assert (Hd : PyStr.truthy d = true).
  { subst d. destruct (PyStr.truthy (Run.directory self)) eqn:E; [done |].
    apply truthy_nonempty, derive_directory_nonempty. }
  set (saved := Run.with_directory d (Run.with_state (Some started) false self)).
  cbn [self_after world_after returns].
  set (w1 := set_runs (<[Run.ID self := saved]> (runs w)) w).
  assert (Hcons1 : Run_constraint_error w1 saved = None).
  { revert Hcons. unfold Run_constraint_error, Run_fk_ok.
    rewrite (ark_taken_insert w w1 self saved saved); done. }
  assert (Hfirst : Model_save_Run false now' saved w1
                   = returns saved (set_runs (<[Run.ID self := saved]> (runs w1)) w1)).
  { unfold Model_save_Run, choose_write. cbn [Run.adding saved Run.with_directory
      Run.with_state andb Run.ID Run.started_at].
    unfold w1 at 1. cbn [runs set_runs]. rewrite has_row_insert.
    fold w1. rewrite Hcons1.
    replace (Run_integers_bind saved) with true by (symmetry; exact Hbind).
    reflexivity. }
  unfold Run_save. rewrite Hfirst.
  cbn [raised self_after world_after returns].
  replace (PyStr.truthy (Run.directory saved)) with true by (symmetry; exact Hd).
  cbn [negb].
  erewrite Model_save_Run_directory_ok;
    [| reflexivity | cbn [runs set_runs]; apply lookup_insert_eq].
  unfold returns. f_equal. unfold w1, set_runs. cbn.
  by rewrite !insert_insert_eq.
Qed.

Lemma Run_save_idempotent_witness :
  let out := Run_save Scenario.t0 Scenario.run Scenario.w_mesh in
  Run_save Scenario.t1 (self_after out) (world_after out)
  = returns (self_after out) (world_after out).
Proof.
  exact (Run_save_idempotent Scenario.t0 Scenario.t1 Scenario.run
           Scenario.w_mesh ltac:(vm_compute; reflexivity)).
Defined.

Lemma strftime_length t : String.length (strftime_Ymd_HMS t) = 19%nat.
Proof. reflexivity. Qed.

Lemma str_app_eq_length (a b x y : string) :
  String.length a = String.length b → a +:+ x = b +:+ y → a = b ∧ x = y.
Proof.
  revert b. induction a as [|c a IH]; intros [|c' b]; try discriminate.
  - done.
  - rewrite !str_app_cons. intros [= Hl] [= -> H].
    destruct (IH b Hl H) as [-> ->]. done.
Qed.

(** X14. Two Runs of the same Mesh with different identifiers never get the
    same derived directory, even when they start in the same second. *)
Theorem Run_directories_distinct (now1 now2 : datetime) (r1 r2 : Run.t)
    (w1 w2 : World) :
  raised (Run_save now1 r1 w1) = None →
  raised (Run_save now2 r2 w2) = None →
  Run.directory r1 = "" → Run.directory r2 = "" →
  Run.mesh r1 = Run.mesh r2 →
  Run.ID r1 ≠ Run.ID r2 →
  Run.directory (self_after (Run_save now1 r1 w1))
  ≠ Run.directory (self_after (Run_save now2 r2 w2)).
Proof.
  intros Hok1 Hok2 Hd1 Hd2 Hmesh Hid.
  pose proof (Run_save_spec now1 r1 w1) as H1.
  pose proof (Run_save_spec now2 r2 w2) as H2.
  rewrite Run_save_raised in Hok1, Hok2. rewrite Hok1 in H1. rewrite Hok2 in H2.
  destruct H1 as (s1 & -> & _). destruct H2 as (s2 & -> & _).
  rewrite Hd1, Hd2, Hmesh. simpl. unfold derive_directory.
  intros H%str_app_inj_l%str_app_inj_l.
  apply str_app_eq_length in H as [_ H];
    [| by rewrite !strftime_length].
  apply str_app_inj_l in H. done.
Qed.

Lemma Run_directories_distinct_witness :
  Run.directory (self_after (Run_save Scenario.t0 Scenario.run Scenario.w_mesh))
  ≠ Run.directory
      (self_after (Run_save Scenario.t0 Scenario.run_again Scenario.w_mesh)).
Proof.
  exact (Run_directories_distinct Scenario.t0 Scenario.t0 Scenario.run
           Scenario.run_again Scenario.w_mesh Scenario.w_mesh
           ltac:(vm_compute; reflexivity) ltac:(vm_compute; reflexivity)
           eq_refl eq_refl eq_refl ltac:(discriminate)).
Defined.

(** ** Deletion: what cascades and what stays *)

Lemma has_row_delete {K V} `{Countable K} (t : gmap K V) (pk : K) :
  has_row (delete pk t) pk = false.
Proof. unfold has_row. by rewrite lookup_delete_eq. Qed.

Lemma has_row_delete_absent {K V} `{Countable K} (t : gmap K V) (pk pk' : K) :
  has_row t pk = false → has_row (delete pk' t) pk = false.
Proof.
  unfold has_row. intros Hn.
  destruct (delete pk' t !! pk) eqn:E; [| done].
  apply lookup_delete_Some in E as [_ E]. by rewrite E in Hn.
Qed.

Lemma delete_row_absent o w : has_obj (delete_row o w) o = false.
Proof.
  destruct o; simpl; try apply has_row_delete;
    apply bool_decide_eq_false; set_solver.
Qed.

Lemma delete_row_keeps_absent o o' w :
  has_obj w o = false → has_obj (delete_row o' w) o = false.
Proof.
  destruct o, o'; simpl; try done; try apply has_row_delete_absent;
    rewrite !bool_decide_eq_false; set_solver.
Qed.

Lemma delete_rows_absent w objs o :
  o ∈ objs → has_obj (foldr delete_row w objs) o = false.
Proof.
  induction objs as [|o' objs IH]; [by intros ?%not_elem_of_nil |].
  intros [-> | Hin]%elem_of_cons; simpl.
  - apply delete_row_absent.
  - by apply delete_row_keeps_absent, IH.
Qed.

Lemma collect_seed n w objs o : o ∈ objs → o ∈ collect n w objs.
Proof. destruct n; simpl; [done |]. intros ?. apply elem_of_app. by left. Qed.

Lemma collect_referrer n w objs t o :
  t ∈ objs → o ∈ all_objs w → cascades_from w t o = true →
  o ∈ collect (S n) w objs.
Proof.
  intros Ht Ho Hc. simpl. apply elem_of_app. right. apply collect_seed.
  apply list_elem_of_bind. exists t. split; [| done].
  apply list_elem_of_In, filter_In. split; [by apply list_elem_of_In | done].
Qed.

Lemma collect_referrer2 n w objs t o1 o2 :
  t ∈ objs → o1 ∈ all_objs w → cascades_from w t o1 = true →
  o2 ∈ all_objs w → cascades_from w o1 o2 = true →
  o2 ∈ collect (S (S n)) w objs.
Proof.
  intros Ht Ho1 Hc1 Ho2 Hc2.
  change (collect (S (S n)) w objs)
    with (objs ++ collect (S n) w (objs ≫= cascade_referrers w)).
  apply elem_of_app. right. apply (collect_referrer n w _ o1 o2); [| done | done].
  apply list_elem_of_bind. exists t. split; [| done].
  apply list_elem_of_In, filter_In. split; [by apply list_elem_of_In | done].
Qed.

Lemma all_objs_run w id r : runs w !! id = Some r → O_Run id ∈ all_objs w.
Proof.
  intros Hr. unfold all_objs. rewrite !elem_of_app.
  do 5 right. left. apply list_elem_of_fmap_2.
  apply list_elem_of_fmap. exists (id, r). split; [done |].
  by apply elem_of_map_to_list.
Qed.

Lemma all_objs_contribution w id c :
  contributions w !! id = Some c → O_Contribution id ∈ all_objs w.
Proof.
  intros Hr. unfold all_objs. rewrite !elem_of_app.
  do 2 right. left. apply list_elem_of_fmap_2.
  apply list_elem_of_fmap. exists (id, c). split; [done |].
  by apply elem_of_map_to_list.
Qed.

Lemma all_objs_image w id i : images w !! id = Some i → O_Image id ∈ all_objs w.
Proof.
  intros Hr. unfold all_objs. rewrite !elem_of_app.
  do 3 right. left. apply list_elem_of_fmap_2.
  apply list_elem_of_fmap. exists (id, i). split; [done |].
  by apply elem_of_map_to_list.
Qed.

(** X15. Deleting a Mesh removes the Mesh, its Runs, its Contributions and the
    Images of those Contributions (the foreign keys declared with
    [CASCADE]), and leaves every ARK in place. *)
Theorem Mesh_delete_cascades (w : World) (mesh_ID : string) :
  let w' := Model_delete (O_Mesh mesh_ID) w in
  meshes w' !! mesh_ID = None
  ∧ (∀ id r, runs w !! id = Some r → Run.mesh r = mesh_ID →
       runs w' !! id = None)
  ∧ (∀ id c, contributions w !! id = Some c → Contribution.mesh c = mesh_ID →
       contributions w' !! id = None)
  ∧ (∀ id i c, images w !! id = Some i →
       contributions w !! Image.contribution i = Some c →
       Contribution.mesh c = mesh_ID →
       images w' !! id = None)
  ∧ arks w' = arks w.
Proof.
  cbv zeta.
  assert (Hgone : ∀ o, o ∈ collect collector_depth w [O_Mesh mesh_ID] →
                       has_obj (Model_delete (O_Mesh mesh_ID) w) o = false).
  { intros o Ho. by apply delete_rows_absent. }
  assert (Hnone : ∀ {K V} `{Countable K} (t : gmap K V) pk,
                    has_row t pk = false → t !! pk = None).
  { intros K V ? ? t pk. unfold has_row. by destruct (t !! pk). }
  assert (Hrun : ∀ id r, runs w !! id = Some r → Run.mesh r = mesh_ID →
                   cascades_from w (O_Mesh mesh_ID) (O_Run id) = true).
  { intros id r Hr <-. unfold cascades_from. simpl. rewrite Hr. simpl.
    rewrite bool_decide_eq_true_2 by done. done. }
  assert (Hcon : ∀ id c, contributions w !! id = Some c →
                   Contribution.mesh c = mesh_ID →
                   cascades_from w (O_Mesh mesh_ID) (O_Contribution id) = true).
  { intros id c Hc <-. unfold cascades_from. simpl. rewrite Hc. simpl.
    rewrite bool_decide_eq_true_2 by done. done. }
  split; [| split; [| split; [| split]]].
  - apply Hnone, (Hgone (O_Mesh mesh_ID)), collect_seed, list_elem_of_here.
  - intros id r Hr Hm. apply Hnone, (Hgone (O_Run id)).
    apply (collect_referrer _ w _ (O_Mesh mesh_ID));
      [apply list_elem_of_here | by eapply all_objs_run | by eapply Hrun].
  - intros id c Hc Hm. apply Hnone, (Hgone (O_Contribution id)).
    apply (collect_referrer _ w _ (O_Mesh mesh_ID));
      [apply list_elem_of_here | by eapply all_objs_contribution
       | by eapply Hcon].
  - intros id i c Hi Hc Hm. apply Hnone, (Hgone (O_Image id)).
    apply (collect_referrer2 _ w _ (O_Mesh mesh_ID)
             (O_Contribution (Image.contribution i)));
      [apply list_elem_of_here | by eapply all_objs_contribution
       | by eapply Hcon | by eapply all_objs_image |].
    unfold cascades_from. simpl. rewrite Hi. simpl.
    rewrite bool_decide_eq_true_2 by done. done.
  - unfold Model_delete. apply delete_rows_keep_arks, collect_no_ARK.
    by apply Forall_singleton.
Qed.

(** X16. No deletion of a Mesh, a Contributor, a Contribution, an Image or a
    Run removes an ARK: the table of ARKs changes only when an ARK itself
    is deleted. *)
Theorem delete_keeps_arks (w : World) (o : Obj) :
  model_of o ≠ M_ARK → arks (Model_delete o w) = arks w.
Proof.
  intros Ho. unfold Model_delete.
  apply delete_rows_keep_arks, collect_no_ARK. by apply Forall_singleton.
Qed.

Lemma delete_keeps_arks_witness :
  arks (Model_delete (O_Contributor 7%N) Scenario.w_contribution)
  = arks Scenario.w_contribution.
Proof.
  exact (delete_keeps_arks Scenario.w_contribution (O_Contributor 7%N)
           ltac:(discriminate)).
Defined.

Lemma cascades_from_run w ID t o :
  of_run ID t → cascades_from w t o = true → of_run ID o.
Proof.
  unfold cascades_from. intros Ht H.
  destruct o; simpl in H; try discriminate H;
    repeat match type of H with
           | context [match ?m !! ?k with _ => _ end] =>
               destruct (m !! k) as [?row |]; simpl in H
           end;
    try discriminate H;
    destruct t; simpl in Ht; try done;
    repeat match type of H with
           | (_ || _)%bool = true => apply orb_prop in H as [H | H]
           end;
    try discriminate H;
    apply bool_decide_eq_true in H; try discriminate H;
    try (injection H as ->; done).
  all: destruct (Run.ark row); discriminate H.
Qed.

Lemma collect_of_run n w ID objs :
  Forall (of_run ID) objs → Forall (of_run ID) (collect n w objs).
Proof.
  revert objs. induction n as [|n IH]; intros objs Hall; [done |].
  simpl. apply Forall_app. split; [done |]. apply IH.
  apply Forall_forall. intros o (t & Ho & Ht)%list_elem_of_bind.
  apply list_elem_of_In, filter_In in Ho as [_ Ho].
  rewrite Forall_forall in Hall.
  apply (cascades_from_run w ID t o); [by apply Hall | exact Ho].
Qed.

Lemma delete_rows_of_run w ID objs :
  Forall (of_run ID) objs →
  let w' := foldr delete_row w objs in
  meshes w' = meshes w ∧ contributors w' = contributors w
  ∧ contributions w' = contributions w ∧ images w' = images w
  ∧ media w' = media w
  ∧ (∀ pk, pk ≠ ID → runs w' !! pk = runs w !! pk)
  ∧ (∀ r c, r ≠ ID → (r, c) ∈ run_contributors w' ↔ (r, c) ∈ run_contributors w)
  ∧ (∀ r i, r ≠ ID → (r, i) ∈ run_images w' ↔ (r, i) ∈ run_images w).
Proof.
  induction 1 as [|o objs Ho _ IH]; [done |].
  cbv zeta in *. simpl.
  destruct IH as (H1 & H2 & H3 & H4 & H5 & H6 & H7 & H8).
  destruct o; simpl in Ho; try done; subst; simpl;
    (split; [done |]); (split; [done |]); (split; [done |]);
    (split; [done |]); (split; [done |]).
  - split; [| done]. intros pk Hpk. rewrite lookup_delete_ne by done. by apply H6.
  - split; [done |]. split; [| done]. intros r c Hr. rewrite <- H7 by done.
    set_solver.
  - split; [done |]. split; [done |]. intros r i Hr. rewrite <- H8 by done.
    set_solver.
Qed.

(** X17. Deleting a Run removes the Run and the rows that link it to its
    contributors and images, and nothing else: the Meshes, Contributors,
    Contributions, Images and stored files, the other Runs and their
    links are as they were. *)
Theorem Run_delete_frame (w : World) (ID : string) :
  let w' := Model_delete (O_Run ID) w in
  runs w' !! ID = None
  ∧ (∀ c, (ID, c) ∉ run_contributors w')
  ∧ (∀ i, (ID, i) ∉ run_images w')
  ∧ meshes w' = meshes w ∧ contributors w' = contributors w
  ∧ contributions w' = contributions w ∧ images w' = images w
  ∧ media w' = media w
  ∧ (∀ pk, pk ≠ ID → runs w' !! pk = runs w !! pk)
  ∧ (∀ r c, r ≠ ID → (r, c) ∈ run_contributors w' ↔ (r, c) ∈ run_contributors w)
  ∧ (∀ r i, r ≠ ID → (r, i) ∈ run_images w' ↔ (r, i) ∈ run_images w).
Proof.
  cbv zeta.
  assert (Hgone : ∀ o, o ∈ collect collector_depth w [O_Run ID] →
                       has_obj (Model_delete (O_Run ID) w) o = false).
  { intros o Ho. by apply delete_rows_absent. }
  assert (Hframe := delete_rows_of_run w ID (collect collector_depth w [O_Run ID])
                      (collect_of_run _ w ID [O_Run ID]
                         ltac:(by apply Forall_singleton))).
  cbv zeta in Hframe. fold (Model_delete (O_Run ID) w) in Hframe.
  split; [| split; [| split; [| exact Hframe]]].
  - specialize (Hgone (O_Run ID) ltac:(apply collect_seed, list_elem_of_here)).
    cbn [has_obj] in Hgone. unfold has_row in Hgone.
    by destruct (runs (Model_delete (O_Run ID) w) !! ID).
  - intros c Hin.
    destruct (decide ((ID, c) ∈ run_contributors w)) as [Hw | Hw].
    + assert (Ho : O_Run_contributors ID c ∈ collect collector_depth w [O_Run ID]).
      { apply (collect_referrer _ w _ (O_Run ID)); [apply list_elem_of_here | |].
        - unfold all_objs. rewrite !elem_of_app. do 6 right. left.
          apply list_elem_of_fmap. exists (ID, c). split; [done |].
          by apply elem_of_elements.
        - unfold cascades_from. simpl.
          rewrite bool_decide_eq_true_2 by done. done. }
      apply Hgone in Ho. cbn [has_obj] in Ho.
      by apply bool_decide_eq_false in Ho.
    + revert Hin. unfold Model_delete.
      generalize (collect collector_depth w [O_Run ID]).
      induction l as [|o l IH]; simpl; [done |].
      destruct o; simpl; try done. set_solver.
  - intros i Hin.
    destruct (decide ((ID, i) ∈ run_images w)) as [Hw | Hw].
    + assert (Ho : O_Run_images ID i ∈ collect collector_depth w [O_Run ID]).
      { apply (collect_referrer _ w _ (O_Run ID)); [apply list_elem_of_here | |].
        - unfold all_objs. rewrite !elem_of_app. do 7 right.
          apply list_elem_of_fmap. exists (ID, i). split; [done |].
          by apply elem_of_elements.
        - unfold cascades_from. simpl.
          rewrite bool_decide_eq_true_2 by done. done. }
      apply Hgone in Ho. cbn [has_obj] in Ho.
      by apply bool_decide_eq_false in Ho.
    + revert Hin. unfold Model_delete.
      generalize (collect collector_depth w [O_Run ID]).
      induction l as [|o l IH]; simpl; [done |].
      destruct o; simpl; try done. set_solver.
Qed.

(** ** [Run.__repr__] *)

(** X18. [repr] of a Run needs its ARK: for a Run with no ARK bound (every Run
    that is processing or failed) it raises, an [AttributeError] when the
    Mesh of the Run exists; it returns a string only when the ARK
    reference is set and the ARK exists. *)
Theorem Run_repr_needs_ARK (str_datetime : datetime → string) (w : World)
    (self : Run.t) :
  (Run.ark self = None →
     ∃ e, Run_repr str_datetime w self = inl e
       ∧ (has_row (meshes w) (Run.mesh self) = true →
          exc_class e = "AttributeError"))
  ∧ (∀ s, Run_repr str_datetime w self = inr s →
       ∃ a row, Run.ark self = Some a ∧ arks w !! a = Some row)
  ∧ (∀ now, let saved := Run_save now self w in
       raised saved = None → Run.ark self = None →
       ∃ msg, Run_repr str_datetime (world_after saved) (self_after saved)
              = inl (AttributeError msg)).
Proof.
  unfold Run_repr, has_row. split; [| split].
  - intros ->.
    destruct (meshes w !! Run.mesh self); eexists;
      (split; [reflexivity | intros H; first [discriminate H | reflexivity]]).
  - intros s. destruct (meshes w !! Run.mesh self); [| discriminate].
    destruct (Run.ark self) as [a |]; [| discriminate].
    destruct (arks w !! a) as [row |] eqn:Hrow; [| discriminate].
    intros _. by exists a, row.
  - intros now. cbv zeta. intros Hok Hark.
    pose proof (Run_save_spec now self w) as H.
    rewrite Run_save_raised in Hok.
    destruct (Model_save_Run_ok now self w Hok) as (_ & _ & _ & Hmesh & _).
    rewrite Hok in H. destruct H as (started & -> & _). simpl.
    rewrite Hark. unfold has_row in Hmesh.
    destruct (meshes w !! Run.mesh self); [eauto | discriminate].
Qed.
